(** * Book search API client: the class-based and the functional variant

    A shallow embedding of [src/BookSearchApiClient.js] and
    [src/BookSearchApiClientFunctional.js].

    Both files are written against a JavaScript host: [fetch], [JSON.parse],
    [DOMParser], [Number], [parseFloat], property lookup on object literals
    and the resolution of identifiers.  Module [JS] models the part of the
    host the two files touch; the services whose results depend on the
    outside world ([fetch], [JSON.parse], [DOMParser]) are fields of a
    [host] record and every definition of the clients takes the host as an
    argument. *)

From Stdlib Require Import ZArith NArith String Ascii List Bool Lia.
From stdpp Require Import base option list strings pretty gmap fin_maps sorting.

Set Warnings "-register-all".
Open Scope string_scope.

(** ** The JavaScript host *)

Module JS.

(** *** Numbers

    A Number is kept as the mathematical value the language specification
    assigns to a numeric literal, [(-1)^negative * mantissa * 10^exp10],
    before the host rounds it to binary64.  [NaN] and the two infinities
    are separate values. *)

Inductive number :=
  | NaN
  | Infinity (negative : bool)
  | Finite (negative : bool) (mantissa : N) (exp10 : Z).

(** [Number.isInteger] on the mathematical value. *)
Definition isInteger (n : number) : bool :=
  match n with
  | Finite _ m e =>
      if (0 <=? e)%Z then true else (m mod 10 ^ Z.to_N (- e) =? 0)%N
  | _ => false
  end.

Definition isNaN (n : number) : bool :=
  match n with NaN => true | _ => false end.

(** *** Values

    Object literals and the objects [JSON.parse] builds are finite maps from
    property names to values; [VStringObject] is the wrapper object that
    [Object(s)] makes of a string. *)

Inductive value :=
  | VUndefined
  | VNull
  | VBool (b : bool)
  | VNum (n : number)
  | VStr (s : string)
  | VStringObject (s : string)
  | VArr (items : list value)
  | VObj (props : gmap string value).

(** [typeof v]. *)
Definition typeof (v : value) : string :=
  match v with
  | VUndefined => "undefined"
  | VNull => "object"
  | VBool _ => "boolean"
  | VNum _ => "number"
  | VStr _ => "string"
  | VStringObject _ | VArr _ | VObj _ => "object"
  end.

(** *** Exceptions and completions

    A thrown error object is its [name] and its [message].  A computation
    either completes normally or throws; an [async] function turns the two
    into a fulfilled or a rejected promise. *)

Record exn := Exn { name : string; message : string }.

Definition Error (msg : string) : exn := Exn "Error" msg.
Definition TypeError (msg : string) : exn := Exn "TypeError" msg.
Definition ReferenceError (msg : string) : exn := Exn "ReferenceError" msg.
Definition SyntaxError (msg : string) : exn := Exn "SyntaxError" msg.

Inductive completion (A : Type) :=
  | Normal (a : A)
  | Throw (e : exn).
Arguments Normal {A} a.
Arguments Throw {A} e.

#[global] Instance completion_ret : MRet completion := λ A a, Normal a.
#[global] Instance completion_fmap : FMap completion := λ A B f c,
  match c with
  | Normal a => Normal (f a)
  | Throw e => Throw e
  end.
#[global] Instance completion_bind : MBind completion := λ A B f c,
  match c with
  | Normal a => f a
  | Throw e => Throw e
  end.

(** [try { body } catch (error) { handler }] *)
Definition try_catch {A} (body : completion A) (handler : exn → completion A)
    : completion A :=
  match body with
  | Normal a => Normal a
  | Throw e => handler e
  end.

(** What a promise settles to. *)
Inductive settled :=
  | Fulfilled (v : value)
  | Rejected (e : exn).

(** The observable behaviour of one call of an entry point: how the
    returned promise settles, and what was passed to [console.error]. *)
Record run := Run { outcome : settled; console_error : list exn }.

(** *** Strings

    A string is its sequence of code units; the model covers code units
    below 256. *)

(** [StrWhiteSpaceChar]: TAB, LF, VT, FF, CR, SP and NBSP. *)
Definition isStrWhiteSpaceChar (c : ascii) : bool :=
  let n := N_of_ascii c in
  ((9 <=? n) && (n <=? 13) || (n =? 32) || (n =? 160))%N.

Fixpoint trimStart (s : string) : string :=
  match s with
  | String c s' => if isStrWhiteSpaceChar c then trimStart s' else s
  | EmptyString => EmptyString
  end.

Fixpoint trimEnd (s : string) : string :=
  match s with
  | String c s' =>
      match trimEnd s' with
      | EmptyString => if isStrWhiteSpaceChar c then EmptyString else String c EmptyString
      | t => String c t
      end
  | EmptyString => EmptyString
  end.

Definition trim (s : string) : string := trimEnd (trimStart s).

Fixpoint startsWith (p s : string) : option string :=
  match p, s with
  | EmptyString, _ => Some s
  | String a p', String b s' => if Ascii.eqb a b then startsWith p' s' else None
  | String _ _, EmptyString => None
  end.

(** *** String to number conversion

    [digits radix s] splits off the longest run of digits of the radix at
    the front of [s]. *)

Definition digitValue (radix : N) (c : ascii) : option N :=
  let n := N_of_ascii c in
  let d :=
    if ((48 <=? n) && (n <=? 57))%N then Some (n - 48)%N
    else if ((97 <=? n) && (n <=? 102))%N then Some (n - 87)%N
    else if ((65 <=? n) && (n <=? 70))%N then Some (n - 55)%N
    else None in
  match d with
  | Some v => if (v <? radix)%N then Some v else None
  | None => None
  end.

Fixpoint digits (radix : N) (s : string) : list N * string :=
  match s with
  | String c s' =>
      match digitValue radix c with
      | Some d => let '(ds, r) := digits radix s' in (d :: ds, r)
      | None => ([], s)
      end
  | EmptyString => ([], EmptyString)
  end.

Definition digitsValue (radix : N) (ds : list N) : N :=
  fold_left (λ acc d, acc * radix + d)%N ds 0%N.

(** [ExponentPart_opt]: [e] or [E], an optional sign and at least one
    digit; anything else is left unread. *)
Definition exponentPart (s : string) : Z * string :=
  match s with
  | String c s1 =>
      if Ascii.eqb c "e" || Ascii.eqb c "E" then
        let '(neg, s2) :=
          match s1 with
          | String "+" r => (false, r)
          | String "-" r => (true, r)
          | _ => (false, s1)
          end in
        match digits 10 s2 with
        | ([], _) => (0%Z, s)
        | (ds, r) =>
            let e := Z.of_N (digitsValue 10 ds) in
            (if neg then (- e)%Z else e, r)
        end
      else (0%Z, s)
  | EmptyString => (0%Z, s)
  end.

(** The longest prefix that is a [StrUnsignedDecimalLiteral], with its
    value and the rest of the string. *)
Definition strUnsignedDecimalLiteral (neg : bool) (s : string)
    : option (number * string) :=
  match startsWith "Infinity" s with
  | Some r => Some (Infinity neg, r)
  | None =>
      let '(int, r1) := digits 10 s in
      let '(frac, r2) :=
        match r1 with
        | String "." r => digits 10 r
        | _ => ([], r1)
        end in
      match int, frac with
      | [], [] => None
      | _, _ =>
          let '(e, r3) := exponentPart r2 in
          Some (Finite neg (digitsValue 10 (int ++ frac))
                       (e - Z.of_nat (length frac)), r3)
      end
  end.

Definition strDecimalLiteral (s : string) : option (number * string) :=
  match s with
  | String "+" r => strUnsignedDecimalLiteral false r
  | String "-" r => strUnsignedDecimalLiteral true r
  | _ => strUnsignedDecimalLiteral false s
  end.

(** [0x], [0o] and [0b] literals: unsigned, and they span the whole text. *)
Definition nonDecimalIntegerLiteral (s : string) : option number :=
  match s with
  | String "0" (String c r) =>
      let radix :=
        if Ascii.eqb c "x" || Ascii.eqb c "X" then Some 16%N
        else if Ascii.eqb c "o" || Ascii.eqb c "O" then Some 8%N
        else if Ascii.eqb c "b" || Ascii.eqb c "B" then Some 2%N
        else None in
      match radix with
      | Some rx =>
          match digits rx r with
          | (d :: ds, EmptyString) => Some (Finite false (digitsValue rx (d :: ds)) 0)
          | _ => None
          end
      | None => None
      end
  | _ => None
  end.

(** [StringToNumber]: the empty or all-blank string is 0, a text that is
    not a [StringNumericLiteral] as a whole is [NaN]. *)
Definition StringToNumber (s : string) : number :=
  match trim s with
  | EmptyString => Finite false 0 0
  | t =>
      match nonDecimalIntegerLiteral t with
      | Some n => n
      | None =>
          match strDecimalLiteral t with
          | Some (n, EmptyString) => n
          | _ => NaN
          end
      end
  end.

(** [Number(x)] and [parseFloat(x)] where [x] is a string or [undefined]
    ([None]), the two things an optional chain ending in [.textContent]
    evaluates to. *)
Definition Number (x : option string) : number :=
  match x with
  | Some s => StringToNumber s
  | None => NaN
  end.

Definition parseFloat (x : option string) : number :=
  let inputString := default "undefined" x in
  match strDecimalLiteral (trimStart inputString) with
  | Some (n, _) => n
  | None => NaN
  end.

(** *** The DOM

    The tree an XML parser returns.  [Text] stands for text and CDATA
    nodes, [Comment] for comments and processing instructions, whose data
    is not part of the text content of an enclosing element. *)

Inductive node :=
  | Element (tagName : string) (childNodes : list node)
  | Text (data : string)
  | Comment (data : string).

Record document := Document { documentChildren : list node }.

(** The concatenation of the data of all text descendants, in tree order. *)
Fixpoint descendantText (n : node) : string :=
  match n with
  | Element _ cs => fold_right (λ c acc, descendantText c +:+ acc) "" cs
  | Text d => d
  | Comment _ => ""
  end.

Definition textContent (n : node) : string :=
  match n with
  | Comment d => d
  | _ => descendantText n
  end.

(** The elements among the inclusive descendants of [n], in tree order. *)
Fixpoint inclusiveElements (n : node) : list node :=
  match n with
  | Element _ cs => n :: flat_map inclusiveElements cs
  | _ => []
  end.

Definition hasQualifiedName (qualifiedName : string) (n : node) : bool :=
  match n with
  | Element t _ => String.eqb qualifiedName "*" || String.eqb t qualifiedName
  | _ => false
  end.

(** [element.getElementsByTagName(name)]: the descendants of the element,
    itself excluded. *)
Definition Element_getElementsByTagName (e : node) (qualifiedName : string)
    : list node :=
  match e with
  | Element _ cs =>
      List.filter (hasQualifiedName qualifiedName) (flat_map inclusiveElements cs)
  | _ => []
  end.

(** [document.getElementsByTagName(name)]: every element of the document. *)
Definition Document_getElementsByTagName (d : document) (qualifiedName : string)
    : list node :=
  List.filter (hasQualifiedName qualifiedName)
    (flat_map inclusiveElements (documentChildren d)).

(** *** Property lookup on an object literal

    [o[key]] finds an own property first and then looks at
    [Object.prototype], whose members every object literal inherits. *)

Definition Object_prototype_keys : list string :=
  [ "constructor"; "__defineGetter__"; "__defineSetter__"; "hasOwnProperty";
    "__lookupGetter__"; "__lookupSetter__"; "isPrototypeOf";
    "propertyIsEnumerable"; "toString"; "valueOf"; "__proto__";
    "toLocaleString" ].

Inductive property (A : Type) :=
  | Own (a : A)
  | Inherited (key : string).
Arguments Own {A} a.
Arguments Inherited {A} key.

Definition Get {A} (o : gmap string A) (key : string) : option (property A) :=
  match o !! key with
  | Some a => Some (Own a)
  | None =>
      if bool_decide (key ∈ Object_prototype_keys) then Some (Inherited key)
      else None
  end.

(** Calling a member of [Object.prototype] as a plain function of one
    string, [this] being [undefined]: [Object(s)] wraps the string,
    [toString] names the missing receiver, [isPrototypeOf] answers [false]
    for a primitive; [__proto__] is [Object.prototype] itself and cannot be
    called, and the remaining members fail to convert [this] to an
    object. *)
Definition call_Object_prototype (key arg : string) : completion value :=
  if String.eqb key "constructor" then Normal (VStringObject arg)
  else if String.eqb key "toString" then Normal (VStr "[object Undefined]")
  else if String.eqb key "isPrototypeOf" then Normal (VBool false)
  else if String.eqb key "__proto__" then
    Throw (TypeError "parser is not a function")
  else Throw (TypeError "Cannot convert undefined or null to object").

(** *** Services of the outside world *)

(** A response of [fetch]: its status and what [response.text()] settles
    to.  [response.ok] holds for the statuses 200 to 299. *)
Record Response := { status : N; text : completion string }.

Definition ok (r : Response) : bool :=
  ((200 <=? status r) && (status r <=? 299))%N.

Record DOMParser :=
  { parseFromString : string → string → completion document }.

Record host := {
  (** [await fetch(url)] *)
  fetch : string → completion Response;
  (** [JSON.parse(text)]: throws a [SyntaxError] on ill-formed text *)
  JSON_parse : string → completion value;
  (** [new DOMParser()]: throws where the host has no [DOMParser] *)
  new_DOMParser : completion DOMParser;
}.

(** *** Reading a property of a value

    [item.key] for a key that no built-in prototype defines and that is
    neither an index nor [length]: the own property of an object, and
    [undefined] on an object without it, on an array and on a primitive;
    [null] and [undefined] have no properties and the read throws. *)
Definition GetV (item : value) (key : string) : completion value :=
  match item with
  | VUndefined =>
      Throw (TypeError ("Cannot read properties of undefined (reading '" +:+ key +:+ "')"))
  | VNull =>
      Throw (TypeError ("Cannot read properties of null (reading '" +:+ key +:+ "')"))
  | VObj props => Normal (default VUndefined (props !! key))
  | _ => Normal VUndefined
  end.

(** [list[0]?.textContent] on a list of nodes, and the value it denotes. *)
Definition firstTextContent (l : list node) : option string :=
  textContent <$> head l.

Definition optional_string (x : option string) : value :=
  match x with
  | Some s => VStr s
  | None => VUndefined
  end.

(** An [async] function body wrapped in
    [try { ... } catch (error) { console.error(..., error); throw error; }] *)
Definition logged_async (body : completion value) : run :=
  match body with
  | Normal v => Run (Fulfilled v) []
  | Throw error => Run (Rejected error) [error]
  end.

End JS.

Import JS.

(** ** [src/BookSearchApiClient.js] *)

Module BookSearchApiClient.
Section methods.
Variable h : host.

Definition parseJSON (jsonString : string) : completion value :=
  try_catch (JSON_parse h jsonString)
    (λ error, Throw (Error ("JSON Parsing Error: " +:+ message error))).

Definition parseXML (xmlString : string) : completion value :=
  try_catch
    (parser ← new_DOMParser h;
     xml ← parseFromString parser xmlString "application/xml";
     mret (VArr ((λ bookNode, VObj {[
       "title" := optional_string (firstTextContent (Element_getElementsByTagName bookNode "title"));
       "author" := optional_string (firstTextContent (Element_getElementsByTagName bookNode "author"));
       "isbn" := optional_string (firstTextContent (Element_getElementsByTagName bookNode "isbn"));
       "quantity" := optional_string (firstTextContent (Element_getElementsByTagName bookNode "quantity"));
       "price" := optional_string (firstTextContent (Element_getElementsByTagName bookNode "price"))
     ]}) <$> Document_getElementsByTagName xml "book")))
    (λ error, Throw (Error ("XML Parsing Error: " +:+ message error))).

Definition normaliseData (data : value) : completion value :=
  match data with
  | VArr items =>
      VArr <$> mapM (λ item,
        title ← GetV item "title";
        author ← GetV item "author";
        isbn ← GetV item "isbn";
        quantity ← GetV item "quantity";
        price ← GetV item "price";
        mret (VObj {[
          "title" := title;
          "author" := author;
          "isbn" := isbn;
          "quantity" := quantity;
          "price" := price
        ]})) items
  | VUndefined =>
      Throw (TypeError "Cannot read properties of undefined (reading 'map')")
  | VNull =>
      Throw (TypeError "Cannot read properties of null (reading 'map')")
  | _ => Throw (TypeError "data.map is not a function")
  end.

Record client := {
  baseURL : string;
  format : string;
  parsers : gmap string (string → completion value);
}.

(** [new BookSearchApiClient(baseURL, format)]; [None] is an argument
    left out. *)
Definition constructor (baseURL : string) (format : option string) : client :=
  {| baseURL := baseURL;
     format := default "json" format;
     parsers := {[ "json" := parseJSON; "xml" := parseXML ]} |}.

Definition call (parser : property (string → completion value))
    (rawData : string) : completion value :=
  match parser with
  | Own f => f rawData
  | Inherited key => call_Object_prototype key rawData
  end.

Definition getBooksByAuthor (this : client) (authorName : string)
    (limit : option N) : run :=
  let limit := default 10%N limit in
  logged_async
    (response ← fetch h (baseURL this +:+ "/by-author?q=" +:+ authorName
                           +:+ "&limit=" +:+ pretty limit
                           +:+ "&format=" +:+ format this);
     if negb (ok response) then
       Throw (Error ("Request failed with status " +:+ pretty (status response)))
     else
       rawData ← text response;
       match Get (parsers this) (format this) with
       | None => Throw (Error ("Unsupported format: " +:+ format this))
       | Some parser =>
           data ← call parser rawData;
           normaliseData data
       end).
End methods.
End BookSearchApiClient.

(** ** [src/BookSearchApiClientFunctional.js] *)

Module BookSearchApiClientFunctional.

(** What a module-level [const] of the file is bound to. *)
Inductive binding :=
  | Parser (f : string → completion value)
  | Normaliser (f : value → completion value).

(** The argument object of [fetchBooksByAuthor]; [None] is a property left
    out. *)
Record params := {
  baseURL : string;
  authorName : string;
  limit : option N;
  format : option string;
}.

Section functions.
Variable h : host.

Definition parseJSON (jsonString : string) : completion value :=
  try_catch (JSON_parse h jsonString)
    (λ error, Throw (Error ("JSON Parsing Error: " +:+ message error))).

Definition parseXML (xmlString : string) : completion value :=
  try_catch
    (parser ← new_DOMParser h;
     xml ← parseFromString parser xmlString "application/xml";
     mret (VArr ((λ bookNode, VObj {[
       "title" := optional_string (firstTextContent (Element_getElementsByTagName bookNode "title"));
       "author" := optional_string (firstTextContent (Element_getElementsByTagName bookNode "author"));
       "isbn" := optional_string (firstTextContent (Element_getElementsByTagName bookNode "isbn"));
       "quantity" := VNum (Number (firstTextContent (Element_getElementsByTagName bookNode "quantity")));
       "price" := VNum (parseFloat (firstTextContent (Element_getElementsByTagName bookNode "price")))
     ]}) <$> Document_getElementsByTagName xml "book")))
    (λ error, Throw (Error ("XML Parsing Error: " +:+ message error))).

Definition normaliseData (data : value) : completion value :=
  match data with
  | VArr items =>
      VArr <$> mapM (λ item,
        title ← GetV item "title";
        author ← GetV item "author";
        isbn ← GetV item "isbn";
        quantity ← GetV item "quantity";
        price ← GetV item "price";
        mret (VObj {[
          "title" := title;
          "author" := author;
          "isbn" := isbn;
          "quantity" := quantity;
          "price" := price
        ]})) items
  | VUndefined =>
      Throw (TypeError "Cannot read properties of undefined (reading 'map')")
  | VNull =>
      Throw (TypeError "Cannot read properties of null (reading 'map')")
  | _ => Throw (TypeError "data.map is not a function")
  end.

(** The functions the file declares ([parseCSV] is inside a comment and
    so is not among them); the entry point, which its own body never
    names, is left out.  The global object of the host has no [parseCSV]
    either. *)
Definition declarations : gmap string binding :=
  {[ "parseJSON" := Parser parseJSON;
     "parseXML" := Parser parseXML;
     "normaliseData" := Normaliser normaliseData ]}.

(** Evaluating an identifier: its binding, or a [ReferenceError]. *)
Definition identifier (name : string) : completion binding :=
  match declarations !! name with
  | Some b => Normal b
  | None => Throw (ReferenceError (name +:+ " is not defined"))
  end.

Definition call (parser : property binding) (rawData : string)
    : completion value :=
  match parser with
  | Own (Parser f) => f rawData
  | Own (Normaliser f) => f (VStr rawData)
  | Inherited key => call_Object_prototype key rawData
  end.

Definition fetchBooksByAuthor (p : params) : run :=
  let limit := default 10%N (limit p) in
  let format := default "json" (format p) in
  match
    json ← identifier "parseJSON";
    xml ← identifier "parseXML";
    csv ← identifier "parseCSV";
    mret ({[ "json" := json; "xml" := xml; "csv" := csv ]} : gmap string binding)
  with
  | Throw e => Run (Rejected e) []
  | Normal parsers =>
      logged_async
        (response ← fetch h (baseURL p +:+ "/by-author?q=" +:+ authorName p
                               +:+ "&limit=" +:+ pretty limit
                               +:+ "&format=" +:+ format);
         if negb (ok response) then
           Throw (Error ("Request failed with status " +:+ pretty (status response)))
         else
           rawData ← text response;
           match Get parsers format with
           | None => Throw (Error ("Unsupported format: " +:+ format))
           | Some parser =>
               data ← call parser rawData;
               normaliseData data
           end)
  end.
End functions.
End BookSearchApiClientFunctional.

(** * Vocabulary of the statements *)

(** ** The normaliser *)

Definition canonical_fields : list string :=
  ["title"; "author"; "isbn"; "quantity"; "price"].

(** The object literal the callback of [normaliseData] builds from a
    record. *)
Definition projection (r : gmap string value) : gmap string value :=
  {[ "title" := default VUndefined (r !! "title");
     "author" := default VUndefined (r !! "author");
     "isbn" := default VUndefined (r !! "isbn");
     "quantity" := default VUndefined (r !! "quantity");
     "price" := default VUndefined (r !! "price") ]}.

(** The callback of [normaliseData], on one item. *)
Definition normalise_item (item : value) : completion value :=
  title ← GetV item "title";
  author ← GetV item "author";
  isbn ← GetV item "isbn";
  quantity ← GetV item "quantity";
  price ← GetV item "price";
  mret (VObj {[ "title" := title; "author" := author; "isbn" := isbn;
                "quantity" := quantity; "price" := price ]}).

(** ** Requests and hosts *)

(** The URL both entry points request. *)
Definition request_url (baseURL authorName : string) (limit : option N)
    (format : option string) : string :=
  baseURL +:+ "/by-author?q=" +:+ authorName
    +:+ "&limit=" +:+ pretty (default 10%N limit)
    +:+ "&format=" +:+ default "json" format.

(** A test double of the host: the server answers every request with the
    same status and body, [JSON.parse] accepts the one text [json_text]
    with the value [json_value], and the XML parser, where there is one,
    hands out [xml] for every text. *)
Definition stub_host (st : N) (body : string)
    (json_text : string) (json_value : value) (xml : option document) : host :=
  {| fetch := λ _, Normal {| status := st; text := Normal body |};
     JSON_parse := λ s,
       if String.eqb s json_text then Normal json_value
       else Throw (SyntaxError "Unexpected token");
     new_DOMParser :=
       match xml with
       | Some d => Normal {| parseFromString := λ _ _, Normal d |}
       | None => Throw (ReferenceError "DOMParser is not defined")
       end |}.

(** The body of the end-to-end example of the specification,
    [[{"title":"Hamlet","author":"Shakespeare","isbn":"111","quantity":3,"price":9.99}]],
    and the value [JSON.parse] makes of it. *)
Definition quoted (s : string) : string :=
  String (ascii_of_N 34) s +:+ String (ascii_of_N 34) EmptyString.

Definition hamlet_text : string :=
  "[{" +:+ quoted "title" +:+ ":" +:+ quoted "Hamlet" +:+ ","
       +:+ quoted "author" +:+ ":" +:+ quoted "Shakespeare" +:+ ","
       +:+ quoted "isbn" +:+ ":" +:+ quoted "111" +:+ ","
       +:+ quoted "quantity" +:+ ":3,"
       +:+ quoted "price" +:+ ":9.99}]".

Definition hamlet : gmap string value :=
  {[ "title" := VStr "Hamlet"; "author" := VStr "Shakespeare";
     "isbn" := VStr "111"; "quantity" := VNum (Finite false 3 0);
     "price" := VNum (Finite false 999 (-2)) ]}.

(** ** Positions in a tree and document order *)

(** The node a path of child indices leads to, starting at [n]. *)
Fixpoint nodeFrom (n : node) (path : list nat) : option node :=
  match path with
  | [] => Some n
  | i :: rest =>
      match n with
      | Element _ cs => c ← cs !! i; nodeFrom c rest
      | _ => None
      end
  end.

(** The same from a list of siblings; the empty path leads nowhere.
    [descendantAt] looks below an element, [nodeAt] in a document. *)
Definition below (siblings : list node) (path : list nat) : option node :=
  match path with
  | [] => None
  | i :: rest => c ← siblings !! i; nodeFrom c rest
  end.

Definition children (n : node) : list node :=
  match n with
  | Element _ cs => cs
  | _ => []
  end.

Definition descendantAt (n : node) (path : list nat) : option node :=
  below (children n) path.

Definition nodeAt (d : document) (path : list nat) : option node :=
  below (documentChildren d) path.

(** Document order on paths: an ancestor comes before its descendants and
    a node before its later siblings and all they contain. *)
Fixpoint before (p q : list nat) : bool :=
  match p, q with
  | [], _ :: _ => true
  | i :: p', j :: q' => Nat.ltb i j || (Nat.eqb i j && before p' q')
  | _, [] => false
  end.

Definition precedes (p q : list nat) : Prop := before p q = true.

Definition named (qualifiedName : string) (n : node) : Prop :=
  ∃ cs, n = Element qualifiedName cs.

(** The elements in and below [n], each with the path that leads to it
    from [n], in the order [inclusiveElements] lists them. *)
Fixpoint located (n : node) : list (list nat * node) :=
  match n with
  | Element _ cs =>
      ([], n) ::
      (fix among (i : nat) (cs : list node) : list (list nat * node) :=
         match cs with
         | [] => []
         | c :: cs' => ((prod_map (cons i) id <$> located c) ++ among (S i) cs')%list
         end) 0 cs
  | _ => []
  end.

Fixpoint locatedAmong (i : nat) (cs : list node) : list (list nat * node) :=
  match cs with
  | [] => []
  | c :: cs' => ((prod_map (cons i) id <$> located c) ++ locatedAmong (S i) cs')%list
  end.

(** [e] is the first element named [q] below [b] in document order, or
    there is none. *)
Definition firstDescendant (b : node) (q : string) (r : option node) : Prop :=
  match r with
  | Some e =>
      ∃ p, descendantAt b p = Some e ∧ named q e ∧
           ∀ p' e', descendantAt b p' = Some e' → named q e' →
                    p' = p ∨ precedes p p'
  | None => ∀ p' e', descendantAt b p' = Some e' → ¬ named q e'
  end.

(** ** Records of the XML parsers *)

(** What [bookNode.getElementsByTagName(k)[0]?.textContent] evaluates to. *)
Definition fieldText (bookNode : node) (k : string) : option string :=
  firstTextContent (Element_getElementsByTagName bookNode k).

(** A text with no numeric reading at its start: after the leading white
    space comes a character that is not a digit, a sign, a decimal point or
    the [I] of [Infinity]. *)
Definition numericStart (c : ascii) : bool :=
  match digitValue 10 c with
  | Some _ => true
  | None => Ascii.eqb c "+" || Ascii.eqb c "-" || Ascii.eqb c "." || Ascii.eqb c "I"
  end.

Definition nonNumeric (s : string) : Prop :=
  ∃ c rest, trimStart s = String c rest ∧ numericStart c = false.

(** The object literals the callbacks of the two [parseXML] build from a
    [book] element: the class-based one keeps the text of every field, the
    functional one converts [quantity] and [price]. *)
Definition textRecord (bookNode : node) : gmap string value :=
  {[ "title" := optional_string (fieldText bookNode "title");
     "author" := optional_string (fieldText bookNode "author");
     "isbn" := optional_string (fieldText bookNode "isbn");
     "quantity" := optional_string (fieldText bookNode "quantity");
     "price" := optional_string (fieldText bookNode "price") ]}.

Definition coercedRecord (bookNode : node) : gmap string value :=
  {[ "title" := optional_string (fieldText bookNode "title");
     "author" := optional_string (fieldText bookNode "author");
     "isbn" := optional_string (fieldText bookNode "isbn");
     "quantity" := VNum (Number (fieldText bookNode "quantity"));
     "price" := VNum (parseFloat (fieldText bookNode "price")) ]}.

(** Following the words of the specification, "the first child element
    matching" a name: the first of the children of [b] that is an element
    with that name. *)
Definition spec_firstChildElement (b : node) (q : string) : option node :=
  head (List.filter (λ c, match c with
                          | Element t _ => String.eqb t q
                          | _ => false
                          end) (children b)).

(** ** Sample documents *)

(** [<catalog><book><details><title>Inner</title></details><title>Outer</title></book></catalog>] *)
Definition nested_xml : string :=
  "<catalog><book><details><title>Inner</title></details><title>Outer</title></book></catalog>".

Definition nested_book : node :=
  Element "book" [ Element "details" [ Element "title" [ Text "Inner" ] ];
                   Element "title" [ Text "Outer" ] ].

Definition nested_document : document :=
  Document [ Element "catalog" [ nested_book ] ].

(** [<books><book><title>Hamlet</title><quantity>3.5</quantity><price>9.99</price></book></books>] *)
Definition fractional_xml : string :=
  "<books><book><title>Hamlet</title><quantity>3.5</quantity><price>9.99</price></book></books>".

Definition fractional_document : document :=
  Document [ Element "books" [ Element "book" [
    Element "title" [ Text "Hamlet" ];
    Element "quantity" [ Text "3.5" ];
    Element "price" [ Text "9.99" ] ] ] ].

(** ** Items of the normaliser and records of the parsers *)

(** [null] and [undefined], the values without properties. *)
Definition nullish (v : value) : bool :=
  match v with
  | VUndefined | VNull => true
  | _ => false
  end.

(** The own properties the normaliser can read from an item: those of an
    object, none of an array or a primitive. *)
Definition properties (item : value) : gmap string value :=
  match item with
  | VObj props => props
  | _ => ∅
  end.

Definition canonicalRecord (item : value) : value :=
  VObj (projection (properties item)).

(** A value that is a string or [undefined]. *)
Definition isText (v : value) : Prop :=
  v = VUndefined ∨ ∃ s, v = VStr s.

(** The text a field of a record holds, if it holds one. *)
Definition textOf (v : option value) : option string :=
  match v with
  | Some (VStr s) => Some s
  | _ => None
  end.

(** A record with [quantity] and [price] replaced by the numbers read from
    the text they hold. *)
Definition coerced (m : gmap string value) : gmap string value :=
  <["quantity" := VNum (Number (textOf (m !! "quantity")))]>
    (<["price" := VNum (parseFloat (textOf (m !! "price")))]> m).

(** A host in which every [fetch] settles the same way, and there is
    nothing to parse with. *)
Definition fixed_fetch_host (fetched : completion Response) : host :=
  {| fetch := λ _, fetched;
     JSON_parse := λ _, Throw (SyntaxError "Unexpected token");
     new_DOMParser := Throw (ReferenceError "DOMParser is not defined") |}.

(** The document a browser hands out for a text that is not well-formed
    XML: a single [parsererror] element. *)
Definition parsererror_document : document :=
  Document [ Element "parsererror" [ Text "no element found" ] ].

(** * Properties *)

(** ** The normaliser *)

Lemma normaliseData_variants_agree data :
  BookSearchApiClientFunctional.normaliseData data
  = BookSearchApiClient.normaliseData data.
Proof. reflexivity. Qed.

Lemma normaliseData_records (recs : list (gmap string value)) :
  BookSearchApiClient.normaliseData (VArr (VObj <$> recs))
  = Normal (VArr (VObj <$> (projection <$> recs))).
Proof.
  unfold BookSearchApiClient.normaliseData.
  induction recs as [|r recs IH]; [reflexivity|].
  cbn [fmap list_fmap mapM] in *.
  destruct (mapM _ (VObj <$> recs)) as [out|e] eqn:E; [|discriminate].
  cbn in IH |- *. injection IH as ->. reflexivity.
Qed.

Lemma projection_dom r : dom (projection r) = list_to_set canonical_fields.
Proof.
  unfold projection. rewrite !dom_insert_L, dom_singleton_L. set_solver.
Qed.

Lemma projection_lookup r k :
  k ∈ canonical_fields → projection r !! k = Some (default VUndefined (r !! k)).
Proof.
  unfold canonical_fields. rewrite !elem_of_cons, elem_of_nil.
  intros [->|[->|[->|[->|[->|[]]]]]]; reflexivity.
Qed.

Lemma projection_lookup_other r k :
  k ∉ canonical_fields → projection r !! k = None.
Proof.
  intros Hk. apply not_elem_of_dom. rewrite projection_dom. set_solver.
Qed.

Lemma projection_idempotent r : projection (projection r) = projection r.
Proof.
  unfold projection at 1.
  rewrite !projection_lookup by (unfold canonical_fields; set_solver).
  reflexivity.
Qed.

Lemma normaliseData_array items :
  BookSearchApiClient.normaliseData (VArr items)
  = VArr <$> mapM normalise_item items.
Proof. reflexivity. Qed.

Lemma normalise_item_shape item o :
  normalise_item item = Normal o → ∃ r, o = VObj (projection r).
Proof.
  destruct item; try discriminate; intros [= <-];
    solve [ by exists ∅ | by eexists ].
Qed.

Lemma normalise_item_fixed r :
  normalise_item (VObj (projection r)) = Normal (VObj (projection r)).
Proof.
  change (normalise_item (VObj (projection r)))
    with (Normal (VObj (projection (projection r))) : completion value).
  by rewrite projection_idempotent.
Qed.

Lemma mapM_normalise_item_fixed items out :
  mapM normalise_item items = Normal out →
  mapM normalise_item out = Normal out.
Proof.
  revert out. induction items as [|item items IH]; intros out.
  - intros [= <-]. reflexivity.
  - cbn [mapM]. destruct (normalise_item item) as [o|e] eqn:Ho; [|discriminate].
    destruct (mapM normalise_item items) as [os|e] eqn:Hos; [|discriminate].
    intros [= <-]. cbn [mapM].
    destruct (normalise_item_shape _ _ Ho) as [r ->].
    rewrite normalise_item_fixed, (IH os eq_refl). reflexivity.
Qed.

(** Normalising what the normaliser returned changes nothing, whatever
    the first input was. *)
Lemma normaliseData_fixed x y :
  BookSearchApiClient.normaliseData x = Normal y →
  BookSearchApiClient.normaliseData y = Normal y.
Proof.
  destruct x; try discriminate.
  rewrite normaliseData_array.
  destruct (mapM normalise_item items) as [out|e] eqn:E; [|discriminate].
  intros [= <-]. rewrite normaliseData_array.
  by rewrite (mapM_normalise_item_fixed _ _ E).
Qed.

(** C5.  For every array of records, [normaliseData] (of either variant)
    returns an array of the same length whose record at each index is
    made from the input record at that index: it has exactly the five
    canonical fields, each holding the value of the input field unchanged,
    or [undefined] where the input has no such field; every other field
    of the input is absent from the output. *)
Theorem normaliseData_projects_canonical_fields
    (recs : list (gmap string value)) :
  ∃ out : list (gmap string value),
    BookSearchApiClient.normaliseData (VArr (VObj <$> recs))
      = Normal (VArr (VObj <$> out)) ∧
    BookSearchApiClientFunctional.normaliseData (VArr (VObj <$> recs))
      = Normal (VArr (VObj <$> out)) ∧
    length out = length recs ∧
    ∀ (i : nat) (r : gmap string value), recs !! i = Some r →
      ∃ o, out !! i = Some o ∧
           dom o = list_to_set canonical_fields ∧
           (∀ k, k ∈ canonical_fields →
                 o !! k = Some (default VUndefined (r !! k))) ∧
           (∀ k, k ∉ canonical_fields → o !! k = None).
Proof.
  exists (projection <$> recs).
  split; [apply normaliseData_records|].
  split; [apply normaliseData_records|].
  split; [by rewrite length_fmap|].
  intros i r Hi. exists (projection r).
  rewrite list_lookup_fmap, Hi.
  repeat split;
    auto using projection_dom, projection_lookup, projection_lookup_other.
Qed.

(** C6.  Normalisation is idempotent: for every array [x] of records,
    [normaliseData x] returns an array [y], and [normaliseData y] returns
    [y] again. *)
Theorem normaliseData_idempotent (recs : list (gmap string value)) :
  ∃ y, BookSearchApiClient.normaliseData (VArr (VObj <$> recs)) = Normal y ∧
       BookSearchApiClient.normaliseData y = Normal y.
Proof.
  eexists. split; [apply normaliseData_records|].
  eapply normaliseData_fixed, normaliseData_records.
Qed.

(** ** The entry points *)

(** The functional variant cannot build its parser registry: [parseJSON]
    and [parseXML] are declared, [parseCSV] is not. *)
Lemma registry_identifiers h :
  (∃ b, BookSearchApiClientFunctional.identifier h "parseJSON" = Normal b) ∧
  (∃ b, BookSearchApiClientFunctional.identifier h "parseXML" = Normal b) ∧
  BookSearchApiClientFunctional.declarations h !! "parseCSV" = None ∧
  BookSearchApiClientFunctional.identifier h "parseCSV"
    = Throw (ReferenceError "parseCSV is not defined").
Proof. repeat split; eexists; reflexivity. Qed.

(** C2.  Every call of [fetchBooksByAuthor], whatever the host, the
    arguments and the format, is rejected with a [ReferenceError]: the
    identifier [parseCSV], which the parser registry names, is not declared,
    while [parseJSON] and [parseXML] are.  The rejection happens before the
    [try] block (nothing is logged) and no call is fulfilled. *)
Theorem fetchBooksByAuthor_always_rejects_ReferenceError
    (h : host) (p : BookSearchApiClientFunctional.params) :
  (∃ b, BookSearchApiClientFunctional.identifier h "parseJSON" = Normal b) ∧
  (∃ b, BookSearchApiClientFunctional.identifier h "parseXML" = Normal b) ∧
  BookSearchApiClientFunctional.declarations h !! "parseCSV" = None ∧
  (∃ e, BookSearchApiClientFunctional.identifier h "parseCSV" = Throw e ∧
        BookSearchApiClientFunctional.fetchBooksByAuthor h p
          = Run (Rejected e) [] ∧
        name e = "ReferenceError") ∧
  (∀ v, outcome (BookSearchApiClientFunctional.fetchBooksByAuthor h p)
        ≠ Fulfilled v).
Proof.
  destruct (registry_identifiers h) as (HJ & HX & HD & HC).
  repeat split; try assumption.
  - eexists. split; [exact HC|]. split; reflexivity.
  - intros v. discriminate.
Qed.

(** [getBooksByAuthor] stage by stage. *)
Lemma getBooksByAuthor_stages h this authorName limit :
  BookSearchApiClient.getBooksByAuthor h this authorName limit
  = logged_async
      (response ← fetch h (request_url (BookSearchApiClient.baseURL this)
                             authorName limit
                             (Some (BookSearchApiClient.format this)));
       if negb (ok response) then
         Throw (Error ("Request failed with status " +:+ pretty (status response)))
       else
         rawData ← text response;
         match Get (BookSearchApiClient.parsers this)
                   (BookSearchApiClient.format this) with
         | None =>
             Throw (Error ("Unsupported format: "
                           +:+ BookSearchApiClient.format this))
         | Some parser =>
             data ← BookSearchApiClient.call parser rawData;
             BookSearchApiClient.normaliseData data
         end).
Proof. reflexivity. Qed.

(** X1.  A response whose status is not 2xx: the call is rejected with the
    request error carrying the status and the error is logged once,
    whatever the format and the registry of the client are; nothing is
    parsed. *)
Lemma getBooksByAuthor_request_failed h this authorName limit response :
  fetch h (request_url (BookSearchApiClient.baseURL this) authorName limit
             (Some (BookSearchApiClient.format this))) = Normal response →
  ok response = false →
  BookSearchApiClient.getBooksByAuthor h this authorName limit
  = Run (Rejected (Error ("Request failed with status "
                          +:+ pretty (status response))))
        [Error ("Request failed with status " +:+ pretty (status response))].
Proof.
  intros Hfetch Hok. rewrite getBooksByAuthor_stages, Hfetch.
  cbn. rewrite Hok. reflexivity.
Qed.

(** The registry of a constructed client. *)
Lemma constructor_registry h baseURL fmt key :
  Get (BookSearchApiClient.parsers (BookSearchApiClient.constructor h baseURL fmt)) key
  = if decide (key = "json") then Some (Own (BookSearchApiClient.parseJSON h))
    else if decide (key = "xml") then Some (Own (BookSearchApiClient.parseXML h))
    else if bool_decide (key ∈ Object_prototype_keys) then Some (Inherited key)
    else None.
Proof.
  unfold Get, BookSearchApiClient.constructor; cbn [BookSearchApiClient.parsers].
  destruct (decide (key = "json")) as [->|Hj]; [reflexivity|].
  rewrite lookup_insert_ne by done.
  destruct (decide (key = "xml")) as [->|Hx]; [reflexivity|].
  rewrite lookup_singleton_ne by done. reflexivity.
Qed.

(** Whatever an inherited member of [Object.prototype] returns when it is
    called in the place of a parser, the normaliser cannot map over it. *)
Lemma inherited_member_never_normalises key rawData :
  match call_Object_prototype key rawData with
  | Normal data =>
      ∃ e, BookSearchApiClient.normaliseData data = Throw e
           ∧ name e = "TypeError"
  | Throw e => name e = "TypeError"
  end.
Proof.
  unfold call_Object_prototype.
  destruct (String.eqb key "constructor"); [by eexists|].
  destruct (String.eqb key "toString"); [by eexists|].
  destruct (String.eqb key "isPrototypeOf"); [by eexists|].
  destruct (String.eqb key "__proto__"); reflexivity.
Qed.

(** C4 (as amended).  A client constructed with a format other than
    [json] and [xml] never fulfils [getBooksByAuthor]; when the server
    answers with a 2xx status and the body can be read, and the format is
    not the name of a member of [Object.prototype], the call is rejected
    with the error [Unsupported format: <format>], whatever the body is. *)
Theorem getBooksByAuthor_unsupported_format
    (h : host) (baseURL fmt authorName : string) (limit : option N) :
  fmt ≠ "json" → fmt ≠ "xml" →
  (∀ v, outcome (BookSearchApiClient.getBooksByAuthor h
                   (BookSearchApiClient.constructor h baseURL (Some fmt))
                   authorName limit) ≠ Fulfilled v) ∧
  (∀ response rawData,
     fetch h (request_url baseURL authorName limit (Some fmt)) = Normal response →
     ok response = true →
     text response = Normal rawData →
     fmt ∉ Object_prototype_keys →
     BookSearchApiClient.getBooksByAuthor h
       (BookSearchApiClient.constructor h baseURL (Some fmt)) authorName limit
     = Run (Rejected (Error ("Unsupported format: " +:+ fmt)))
           [Error ("Unsupported format: " +:+ fmt)]).
Proof.
  intros Hj Hx. rewrite getBooksByAuthor_stages, constructor_registry.
  cbn [BookSearchApiClient.constructor BookSearchApiClient.baseURL
       BookSearchApiClient.format default from_option id].
  rewrite !decide_False by done. split.
  - intros v.
    destruct (fetch h _) as [response|e]; [|discriminate]. cbn.
    destruct (ok response); [|discriminate]. cbn.
    destruct (text response) as [rawData|e]; [|discriminate]. cbn.
    case_bool_decide; [|discriminate].
    pose proof (inherited_member_never_normalises fmt rawData) as Hcall.
    cbn [BookSearchApiClient.call].
    destruct (call_Object_prototype fmt rawData) as [data|e]; [|discriminate].
    destruct Hcall as (e & He & _). cbn. rewrite He. discriminate.
  - intros response rawData -> Hok Htext Hproto. cbn.
    rewrite Hok, Htext. cbn. by rewrite bool_decide_false.
Qed.

Lemma getBooksByAuthor_unsupported_format_witness :
  outcome (BookSearchApiClient.getBooksByAuthor
             (stub_host 200 "title,author" "[]" (VArr []) None)
             (BookSearchApiClient.constructor
                (stub_host 200 "title,author" "[]" (VArr []) None)
                "http://api.example.com" (Some "csv"))
             "Shakespeare" (Some 10%N))
  = Rejected (Error "Unsupported format: csv").
Proof.
  pose proof (getBooksByAuthor_unsupported_format
    (stub_host 200 "title,author" "[]" (VArr []) None)
    "http://api.example.com" "csv" "Shakespeare" (Some 10%N)
    ltac:(discriminate) ltac:(discriminate)) as [_ H].
  rewrite (H {| status := 200; text := Normal "title,author" |} "title,author");
    [reflexivity | reflexivity | reflexivity | reflexivity | ].
  apply (bool_decide_eq_false_1 _). vm_compute. reflexivity.
Defined.

(** C4, the claim as stated fails: with format [csv] and a server that
    answers 500, the call is rejected with the request error, not with the
    unsupported-format error. *)
Lemma csv_with_status_500_is_a_request_error :
  outcome (BookSearchApiClient.getBooksByAuthor
             (stub_host 500 "Internal Server Error" "[]" (VArr []) None)
             (BookSearchApiClient.constructor
                (stub_host 500 "Internal Server Error" "[]" (VArr []) None)
                "http://api.example.com" (Some "csv"))
             "Shakespeare" (Some 10%N))
  = Rejected (Error "Request failed with status 500")
  ∧ Error "Request failed with status 500" ≠ Error "Unsupported format: csv".
Proof. split; [reflexivity|discriminate]. Qed.

(** A format that names a member of [Object.prototype] finds that member
    in the registry: a 2xx answer then ends in a [TypeError]. *)
Example toString_format_is_a_type_error :
  outcome (BookSearchApiClient.getBooksByAuthor
             (stub_host 200 "[]" "[]" (VArr []) None)
             (BookSearchApiClient.constructor
                (stub_host 200 "[]" "[]" (VArr []) None)
                "http://api.example.com" (Some "toString"))
             "Shakespeare" (Some 10%N))
  = Rejected (TypeError "data.map is not a function").
Proof. reflexivity. Qed.

(** A 2xx answer whose body can be read, for a client whose format is
    [json]: the outcome is that of [parseJSON] followed by
    [normaliseData]. *)
Lemma getBooksByAuthor_json h baseURL fmt authorName limit response rawData :
  default "json" fmt = "json" →
  fetch h (request_url baseURL authorName limit fmt) = Normal response →
  ok response = true →
  text response = Normal rawData →
  BookSearchApiClient.getBooksByAuthor h
    (BookSearchApiClient.constructor h baseURL fmt) authorName limit
  = logged_async (data ← BookSearchApiClient.parseJSON h rawData;
                  BookSearchApiClient.normaliseData data).
Proof.
  intros Hfmt Hfetch Hok Htext.
  rewrite getBooksByAuthor_stages, constructor_registry.
  cbn [BookSearchApiClient.constructor BookSearchApiClient.baseURL
       BookSearchApiClient.format].
  unfold request_url in *. rewrite Hfmt in *.
  cbn [default from_option id]. rewrite Hfetch. cbn.
  rewrite Hok, Htext. reflexivity.
Qed.

(** C7 (as amended).  When the server answers with a 2xx status and a
    body that [JSON.parse] refuses, [getBooksByAuthor] of a client whose
    format is [json] is rejected with an [Error] whose message is
    [JSON Parsing Error: ] followed by the message of the parser; the call
    is not fulfilled. *)
Theorem getBooksByAuthor_malformed_json
    (h : host) (baseURL : string) (fmt : option string)
    (authorName : string) (limit : option N)
    (response : Response) (rawData : string) (cause : exn) :
  default "json" fmt = "json" →
  fetch h (request_url baseURL authorName limit fmt) = Normal response →
  ok response = true →
  text response = Normal rawData →
  JSON_parse h rawData = Throw cause →
  BookSearchApiClient.getBooksByAuthor h
    (BookSearchApiClient.constructor h baseURL fmt) authorName limit
  = Run (Rejected (Error ("JSON Parsing Error: " +:+ message cause)))
        [Error ("JSON Parsing Error: " +:+ message cause)].
Proof.
  intros Hfmt Hfetch Hok Htext Hparse.
  rewrite (getBooksByAuthor_json _ _ _ _ _ _ _ Hfmt Hfetch Hok Htext).
  unfold BookSearchApiClient.parseJSON. rewrite Hparse. reflexivity.
Qed.

Lemma getBooksByAuthor_malformed_json_witness :
  outcome (BookSearchApiClient.getBooksByAuthor
             (stub_host 200 "{not valid" "[]" (VArr []) None)
             (BookSearchApiClient.constructor
                (stub_host 200 "{not valid" "[]" (VArr []) None)
                "http://api.example.com" (Some "json"))
             "Shakespeare" (Some 10%N))
  = Rejected (Error "JSON Parsing Error: Unexpected token").
Proof.
  rewrite (getBooksByAuthor_malformed_json
             (stub_host 200 "{not valid" "[]" (VArr []) None)
             "http://api.example.com" (Some "json") "Shakespeare" (Some 10%N)
             {| status := 200; text := Normal "{not valid" |} "{not valid"
             (SyntaxError "Unexpected token")
             eq_refl eq_refl eq_refl eq_refl eq_refl).
  reflexivity.
Defined.

(** C7, the claim as stated fails: a server that answers 500 with a body
    that is not JSON makes the call end in the request error; the parser
    is not reached and the error does not name the JSON format. *)
Lemma malformed_body_with_status_500_is_a_request_error :
  JSON_parse (stub_host 500 "{not valid" "[]" (VArr []) None) "{not valid"
  = Throw (SyntaxError "Unexpected token")
  ∧ outcome (BookSearchApiClient.getBooksByAuthor
               (stub_host 500 "{not valid" "[]" (VArr []) None)
               (BookSearchApiClient.constructor
                  (stub_host 500 "{not valid" "[]" (VArr []) None)
                  "http://api.example.com" (Some "json"))
               "Shakespeare" (Some 10%N))
    = Rejected (Error "Request failed with status 500")
  ∧ ∀ cause, Error "Request failed with status 500"
             ≠ Error ("JSON Parsing Error: " +:+ cause).
Proof. repeat split; discriminate. Qed.

(** C10 (as amended).  When the server answers with a 2xx status and a
    body that [JSON.parse] accepts as a value other than an array,
    [parseJSON] returns that value unchanged, [normaliseData] throws a
    [TypeError] on it, and [getBooksByAuthor] of a client whose format is
    [json] is rejected with that [TypeError], which is not the error
    [parseJSON] raises. *)
Theorem getBooksByAuthor_json_not_an_array
    (h : host) (baseURL : string) (fmt : option string)
    (authorName : string) (limit : option N)
    (response : Response) (rawData : string) (v : value) :
  default "json" fmt = "json" →
  fetch h (request_url baseURL authorName limit fmt) = Normal response →
  ok response = true →
  text response = Normal rawData →
  JSON_parse h rawData = Normal v →
  (∀ items, v ≠ VArr items) →
  BookSearchApiClient.parseJSON h rawData = Normal v ∧
  ∃ e, BookSearchApiClient.normaliseData v = Throw e ∧
       name e = "TypeError" ∧
       BookSearchApiClient.getBooksByAuthor h
         (BookSearchApiClient.constructor h baseURL fmt) authorName limit
       = Run (Rejected e) [e] ∧
       ∀ cause, e ≠ Error ("JSON Parsing Error: " +:+ cause).
Proof.
  intros Hfmt Hfetch Hok Htext Hparse Hv.
  rewrite (getBooksByAuthor_json _ _ _ _ _ _ _ Hfmt Hfetch Hok Htext).
  unfold BookSearchApiClient.parseJSON. rewrite Hparse. cbn.
  split; [reflexivity|].
  destruct v; try (eexists; repeat split; discriminate).
  by destruct (Hv items).
Qed.

Lemma getBooksByAuthor_json_not_an_array_witness :
  outcome (BookSearchApiClient.getBooksByAuthor
             (stub_host 200 "{}" "{}" (VObj ∅) None)
             (BookSearchApiClient.constructor
                (stub_host 200 "{}" "{}" (VObj ∅) None)
                "http://api.example.com" (Some "json"))
             "Shakespeare" (Some 10%N))
  = Rejected (TypeError "data.map is not a function").
Proof.
  destruct (getBooksByAuthor_json_not_an_array
              (stub_host 200 "{}" "{}" (VObj ∅) None)
              "http://api.example.com" (Some "json") "Shakespeare" (Some 10%N)
              {| status := 200; text := Normal "{}" |} "{}" (VObj ∅)
              eq_refl eq_refl eq_refl eq_refl eq_refl ltac:(discriminate))
    as (_ & e & He & _ & -> & _).
  injection He as <-. reflexivity.
Defined.

(** C10, the claim as stated fails: a server that answers 500 with a JSON
    object as its body makes the call end in the request error, whose name
    is not [TypeError]; the normaliser is not reached. *)
Lemma json_object_with_status_500_is_a_request_error :
  JSON_parse (stub_host 500 "{}" "{}" (VObj ∅) None) "{}" = Normal (VObj ∅)
  ∧ outcome (BookSearchApiClient.getBooksByAuthor
               (stub_host 500 "{}" "{}" (VObj ∅) None)
               (BookSearchApiClient.constructor
                  (stub_host 500 "{}" "{}" (VObj ∅) None)
                  "http://api.example.com" (Some "json"))
               "Shakespeare" (Some 10%N))
    = Rejected (Error "Request failed with status 500")
  ∧ name (Error "Request failed with status 500") ≠ "TypeError".
Proof. repeat split; discriminate. Qed.

(** C8, at the failing input: the server answers 500.  The class-based
    client rejects with the request error that carries the status; the
    functional entry point has already failed on its registry and rejects
    with the [ReferenceError] instead. *)
Theorem fetchBooksByAuthor_status_500 :
  outcome (BookSearchApiClient.getBooksByAuthor
             (stub_host 500 "Internal Server Error" "[]" (VArr []) None)
             (BookSearchApiClient.constructor
                (stub_host 500 "Internal Server Error" "[]" (VArr []) None)
                "http://api.example.com" (Some "json"))
             "Shakespeare" (Some 10%N))
  = Rejected (Error "Request failed with status 500")
  ∧ outcome (BookSearchApiClientFunctional.fetchBooksByAuthor
               (stub_host 500 "Internal Server Error" "[]" (VArr []) None)
               {| BookSearchApiClientFunctional.baseURL := "http://api.example.com";
                  BookSearchApiClientFunctional.authorName := "Shakespeare";
                  BookSearchApiClientFunctional.limit := Some 10%N;
                  BookSearchApiClientFunctional.format := Some "json" |})
    = Rejected (ReferenceError "parseCSV is not defined").
Proof. split; reflexivity. Qed.

(** C1, at the failing input: the end-to-end example of the specification.
    The class-based client is fulfilled with the one normalised record; the
    functional entry point is rejected with the [ReferenceError]. *)
Theorem entry_points_differ_on_the_example :
  outcome (BookSearchApiClient.getBooksByAuthor
             (stub_host 200 hamlet_text hamlet_text (VArr [VObj hamlet]) None)
             (BookSearchApiClient.constructor
                (stub_host 200 hamlet_text hamlet_text (VArr [VObj hamlet]) None)
                "http://api.example.com" (Some "json"))
             "Shakespeare" (Some 10%N))
  = Fulfilled (VArr [VObj hamlet])
  ∧ outcome (BookSearchApiClientFunctional.fetchBooksByAuthor
               (stub_host 200 hamlet_text hamlet_text (VArr [VObj hamlet]) None)
               {| BookSearchApiClientFunctional.baseURL := "http://api.example.com";
                  BookSearchApiClientFunctional.authorName := "Shakespeare";
                  BookSearchApiClientFunctional.limit := Some 10%N;
                  BookSearchApiClientFunctional.format := Some "json" |})
    = Rejected (ReferenceError "parseCSV is not defined").
Proof. split; vm_compute; reflexivity. Qed.

(** ** Trees, paths and document order *)

Lemma node_nested_ind (P : node → Prop) :
  (∀ t cs, Forall P cs → P (Element t cs)) →
  (∀ d, P (Text d)) →
  (∀ d, P (Comment d)) →
  ∀ n, P n.
Proof.
  intros HE HT HC. fix IH 1. intros [t cs|d|d]; [|apply HT|apply HC].
  apply HE. induction cs as [|c cs IHcs]; constructor; [apply IH|apply IHcs].
Qed.

Lemma located_Element t cs :
  located (Element t cs) = ([], Element t cs) :: locatedAmong 0 cs.
Proof. reflexivity. Qed.

Lemma elem_of_locatedAmong i cs p e :
  (p, e) ∈ locatedAmong i cs ↔
  ∃ j c rest, p = (i + j) :: rest ∧ cs !! j = Some c ∧ (rest, e) ∈ located c.
Proof.
  revert i. induction cs as [|c cs IH]; intros i; cbn [locatedAmong].
  - rewrite elem_of_nil. split; [done|]. by intros (j & c & rest & _ & ? & _).
  - rewrite elem_of_app, list_elem_of_fmap, IH. split.
    + intros [([rest e'] & [= -> ->] & Hin)|(j & c' & rest & -> & Hj & Hin)].
      * exists 0, c, rest. by rewrite Nat.add_0_r.
      * exists (S j), c', rest. split; [f_equal; lia|done].
    + intros ([|j] & c' & rest & -> & Hj & Hin).
      * left. injection Hj as <-. exists (rest, e).
        by rewrite Nat.add_0_r.
      * right. exists j, c', rest. split; [f_equal; lia|done].
Qed.

(** [located] lists exactly the positions that hold an element. *)
Lemma elem_of_located n p e :
  (p, e) ∈ located n ↔ nodeFrom n p = Some e ∧ ∃ t cs, e = Element t cs.
Proof.
  revert n. induction p as [|i rest IH]; intros n.
  - destruct n as [t cs|d|d]; cbn [nodeFrom located].
    + rewrite elem_of_cons, elem_of_locatedAmong. split.
      * intros [[= ->]|(j & c & rest & [=] & _)]. eauto.
      * intros [[= <-] _]. by left.
    + rewrite elem_of_nil. split; [done|]. by intros [[= <-] (t & cs & [=])].
    + rewrite elem_of_nil. split; [done|]. by intros [[= <-] (t & cs & [=])].
  - destruct n as [t cs|d|d]; cbn [nodeFrom located].
    + rewrite elem_of_cons, elem_of_locatedAmong. split.
      * intros [[=]|(j & c & rest' & [= -> <-] & Hj & Hin)].
        rewrite Hj. cbn. by apply IH.
      * intros [Hn He]. right.
        destruct (cs !! i) as [c|] eqn:Hi; [|done]. cbn in Hn.
        exists i, c, rest. split; [done|]. split; [done|]. by apply IH.
    + rewrite elem_of_nil. split; [done|]. by intros [[=] _].
    + rewrite elem_of_nil. split; [done|]. by intros [[=] _].
Qed.

Lemma located_elements n : (located n).*2 = inclusiveElements n.
Proof.
  induction n as [t cs IH|d|d] using node_nested_ind; [|done..].
  rewrite located_Element. cbn [fmap list_fmap snd inclusiveElements]. f_equal.
  generalize 0. induction IH as [|c cs Hc _ IHcs]; intros i; [done|].
  cbn [locatedAmong flat_map]. rewrite fmap_app, IHcs, <- Hc. f_equal.
  rewrite <- list_fmap_compose. by apply list_fmap_ext; intros ? [? ?] ?.
Qed.

Lemma locatedAmong_elements i cs :
  (locatedAmong i cs).*2 = flat_map inclusiveElements cs.
Proof.
  revert i. induction cs as [|c cs IH]; intros i; [done|].
  cbn [locatedAmong flat_map]. rewrite fmap_app, IH, <- located_elements.
  f_equal. rewrite <- list_fmap_compose. by apply list_fmap_ext; intros ? [? ?] ?.
Qed.


Lemma located_sorted n : StronglySorted precedes (located n).*1.
Proof.
  induction n as [t cs IH|d|d] using node_nested_ind; [|constructor..].
  rewrite located_Element. cbn [fmap list_fmap fst]. constructor.
  - generalize 0. induction IH as [|c cs Hc _ IHcs]; intros i; [constructor|].
    cbn [locatedAmong]. rewrite fmap_app. apply StronglySorted_app.
    split; [|split; [|apply IHcs]].
    + intros p q [[p' e] [-> Hp]]%list_elem_of_fmap [[q' e'] [-> Hq]]%list_elem_of_fmap.
      apply list_elem_of_fmap in Hp as [[p'' e''] [[= -> ->] _]].
      apply elem_of_locatedAmong in Hq as (j & _ & rest & -> & _).
      unfold precedes. cbn.
      replace (i <=? i + j)%nat with true; [done|].
      symmetry. apply Nat.leb_le. lia.
    + assert ((prod_map (cons i) id <$> located c).*1
              = cons i <$> (located c).*1) as ->.
      { rewrite <- !list_fmap_compose. by apply list_fmap_ext; intros ? [? ?] ?. }
      apply (StronglySorted_fmap _ precedes precedes); [|exact Hc].
      intros p q Hpq. unfold precedes. cbn [before].
      by rewrite Nat.ltb_irrefl, Nat.eqb_refl.
  - apply Forall_forall. intros p [[p' e] [-> Hp]]%list_elem_of_fmap.
    apply elem_of_locatedAmong in Hp as (j & _ & rest & -> & _). done.
Qed.

Lemma elem_of_locatedAmong_below cs p e :
  (p, e) ∈ locatedAmong 0 cs ↔ below cs p = Some e ∧ ∃ t cs', e = Element t cs'.
Proof.
  rewrite elem_of_locatedAmong. split.
  - intros (j & c & rest & -> & Hj & [Hn He]%elem_of_located).
    cbn. by rewrite Hj.
  - intros [Hb He]. destruct p as [|i rest]; [done|]. cbn in Hb.
    destruct (cs !! i) as [c|] eqn:Hi; [|done].
    exists i, c, rest. split; [done|]. split; [done|]. by apply elem_of_located.
Qed.

Lemma hasQualifiedName_named q n :
  q ≠ "*" → hasQualifiedName q n = true ↔ named q n.
Proof.
  intros Hq. unfold named. destruct n as [t cs|d|d]; cbn.
  - apply String.eqb_neq in Hq. rewrite Hq. cbn. rewrite String.eqb_eq.
    split; [intros ->; eauto|by intros (? & [= ->])].
  - split; [done|by intros (? & [=])].
  - split; [done|by intros (? & [=])].
Qed.

Lemma elem_of_List_filter {A} (f : A → bool) l x :
  x ∈ List.filter f l ↔ x ∈ l ∧ f x = true.
Proof. rewrite !list_elem_of_In. apply filter_In. Qed.

Lemma List_filter_snd {A B} (f : B → bool) (l : list (A * B)) :
  (List.filter (λ x, f x.2) l).*2 = List.filter f l.*2.
Proof.
  induction l as [|[a b] l IH]; [done|]. cbn.
  destruct (f b); cbn; by rewrite IH.
Qed.

Lemma List_filter_sorted {A B} (R : relation A) (f : A * B → bool) l :
  StronglySorted R l.*1 → StronglySorted R (List.filter f l).*1.
Proof.
  induction l as [|x l IH]; [done|]. cbn.
  intros [Hx Hl]%StronglySorted_cons. destruct (f x); [|by apply IH].
  cbn. apply StronglySorted_cons. split; [|by apply IH].
  rewrite Forall_forall in Hx |- *.
  intros a [y [-> [Hy _]%elem_of_List_filter]]%list_elem_of_fmap.
  apply Hx, list_elem_of_fmap. eauto.
Qed.

(** The elements with a given name among the descendants of a list of
    siblings: the filter of the source lists every position that holds
    one, once, in document order. *)
Lemma tagged_elements cs q :
  q ≠ "*" →
  ∃ l : list (list nat * node),
    List.filter (hasQualifiedName q) (flat_map inclusiveElements cs) = l.*2 ∧
    StronglySorted precedes l.*1 ∧
    ∀ p e, (p, e) ∈ l ↔ below cs p = Some e ∧ named q e.
Proof.
  intros Hq.
  exists (List.filter (λ x, hasQualifiedName q x.2) (locatedAmong 0 cs)).
  split; [|split].
  - by rewrite List_filter_snd, locatedAmong_elements.
  - apply List_filter_sorted.
    pose proof (located_sorted (Element "" cs)) as H.
    rewrite located_Element in H. by apply StronglySorted_cons in H as [_ H].
  - intros p e. rewrite elem_of_List_filter, elem_of_locatedAmong_below.
    cbn [snd]. rewrite (hasQualifiedName_named _ _ Hq). unfold named.
    split; [by intros [[Hb _] Hn]|].
    intros [Hb (cs' & ->)]. repeat split; eauto.
Qed.

Lemma before_irrefl p : before p p = false.
Proof.
  induction p as [|i p IH]; [done|]. cbn [before].
  by rewrite Nat.ltb_irrefl, Nat.eqb_refl, IH.
Qed.

Lemma before_asym p q : before p q = true → before q p = false.
Proof.
  revert q. induction p as [|i p IH]; intros [|j q]; cbn [before]; try done.
  intros [Hlt|[Heq Hpq]%andb_true_iff]%orb_true_iff.
  - apply Nat.ltb_lt in Hlt.
    replace (j <? i)%nat with false by (symmetry; apply Nat.ltb_ge; lia).
    replace (j =? i)%nat with false by (symmetry; apply Nat.eqb_neq; lia).
    done.
  - apply Nat.eqb_eq in Heq as ->.
    by rewrite Nat.ltb_irrefl, Nat.eqb_refl, (IH _ Hpq).
Qed.

(** [getElementsByTagName(q)[0]] on an element is the first descendant
    named [q]. *)
Lemma head_getElementsByTagName b q :
  q ≠ "*" → firstDescendant b q (head (Element_getElementsByTagName b q)).
Proof.
  intros Hq. destruct (tagged_elements (children b) q Hq) as (l & Hl & Hs & Hin).
  assert (Element_getElementsByTagName b q = l.*2) as ->.
  { destruct b; [exact Hl|..]; cbn in Hl |- *; done. }
  unfold firstDescendant, descendantAt.
  destruct l as [|[p e] l]; cbn [fmap list_fmap head snd].
  - intros p' e' Hb Hn. by apply (elem_of_nil (p', e')), Hin.
  - destruct (proj1 (Hin p e)) as [Hb Hn]; [by left|].
    exists p. split; [done|]. split; [done|].
    intros p' e' Hb' Hn'.
    assert ((p', e') ∈ (p, e) :: l) as [[= -> ->]|Hl']%elem_of_cons
      by by apply Hin.
    + by left.
    + right. cbn in Hs. apply StronglySorted_cons in Hs as [Hall _].
      rewrite Forall_forall in Hall. apply Hall, list_elem_of_fmap.
      by exists (p', e').
Qed.

(** The first descendant is determined by the tree. *)
Lemma firstDescendant_unique b q r r' :
  firstDescendant b q r → firstDescendant b q r' → r = r'.
Proof.
  destruct r as [e|], r' as [e'|]; cbn.
  - intros (p & Hp & Hn & Hmin) (p' & Hp' & Hn' & Hmin').
    destruct (Hmin _ _ Hp' Hn') as [->|H1]; [congruence|].
    destruct (Hmin' _ _ Hp Hn) as [->|H2]; [congruence|].
    apply before_asym in H1. unfold precedes in H2. congruence.
  - intros (p & Hp & Hn & _) Hnone. by destruct (Hnone _ _ Hp).
  - intros Hnone (p & Hp & Hn & _). by destruct (Hnone _ _ Hp).
  - done.
Qed.

(** ** Conversion of text to numbers *)

Example Number_samples :
  Number (Some "3") = Finite false 3 0
  ∧ Number (Some " 42 ") = Finite false 42 0
  ∧ Number (Some "9.99") = Finite false 999 (-2)
  ∧ Number (Some "-1.25e-2") = Finite true 125 (-4)
  ∧ Number (Some ".5") = Finite false 5 (-1)
  ∧ Number (Some "5.") = Finite false 5 0
  ∧ Number (Some "0x1F") = Finite false 31 0
  ∧ Number (Some "-Infinity") = Infinity true
  ∧ Number (Some "") = Finite false 0 0
  ∧ Number (Some "three") = NaN
  ∧ Number (Some "1e") = NaN
  ∧ Number (Some "-0x1F") = NaN
  ∧ Number None = NaN.
Proof. repeat split; reflexivity. Qed.

Example parseFloat_samples :
  parseFloat (Some "9.99") = Finite false 999 (-2)
  ∧ parseFloat (Some "  9.99 GBP") = Finite false 999 (-2)
  ∧ parseFloat (Some "1e3x") = Finite false 1 3
  ∧ parseFloat (Some "1e+") = Finite false 1 0
  ∧ parseFloat (Some "-.5") = Finite true 5 (-1)
  ∧ parseFloat (Some "0x1F") = Finite false 0 0
  ∧ parseFloat (Some "") = NaN
  ∧ parseFloat (Some ".") = NaN
  ∧ parseFloat (Some "GBP 9.99") = NaN
  ∧ parseFloat None = NaN.
Proof. repeat split; reflexivity. Qed.

Lemma trimStart_head s c r :
  trimStart s = String c r → isStrWhiteSpaceChar c = false.
Proof.
  induction s as [|a s IH]; [done|]. cbn.
  destruct (isStrWhiteSpaceChar a) eqn:Ha; [done|]. by intros [= <- _].
Qed.

Lemma trimEnd_head c r :
  isStrWhiteSpaceChar c = false → ∃ r', trimEnd (String c r) = String c r'.
Proof. intros Hc. cbn. destruct (trimEnd r); rewrite ?Hc; eauto. Qed.

Lemma strDecimalLiteral_nonNumeric c r :
  numericStart c = false → strDecimalLiteral (String c r) = None.
Proof.
  destruct c as [[] [] [] [] [] [] [] []]; intros H;
    first [discriminate H | reflexivity].
Qed.

Lemma nonDecimalIntegerLiteral_nonNumeric c r :
  numericStart c = false → nonDecimalIntegerLiteral (String c r) = None.
Proof.
  destruct c as [[] [] [] [] [] [] [] []]; intros H;
    first [discriminate H | reflexivity].
Qed.

Lemma Number_nonNumeric s : nonNumeric s → Number (Some s) = NaN.
Proof.
  intros (c & r & Ht & Hc). cbn [Number]. unfold StringToNumber, trim.
  rewrite Ht. destruct (trimEnd_head c r (trimStart_head _ _ _ Ht)) as [r' ->].
  by rewrite nonDecimalIntegerLiteral_nonNumeric, strDecimalLiteral_nonNumeric.
Qed.

Lemma parseFloat_nonNumeric s : nonNumeric s → parseFloat (Some s) = NaN.
Proof.
  intros (c & r & Ht & Hc). unfold parseFloat. cbn [default from_option id].
  by rewrite Ht, strDecimalLiteral_nonNumeric.
Qed.

(** ** The XML parsers *)

Example getElementsByTagName_samples :
  Document_getElementsByTagName nested_document "book" = [nested_book]
  ∧ Document_getElementsByTagName nested_document "title"
    = [Element "title" [Text "Inner"]; Element "title" [Text "Outer"]]
  ∧ Element_getElementsByTagName nested_book "book" = []
  ∧ textContent nested_book = "InnerOuter"
  ∧ fieldText nested_book "title" = Some "Inner"
  ∧ fieldText nested_book "price" = None.
Proof. repeat split; reflexivity. Qed.

Lemma parseXML_textRecords h xmlString parser doc :
  new_DOMParser h = Normal parser →
  parseFromString parser xmlString "application/xml" = Normal doc →
  BookSearchApiClient.parseXML h xmlString
  = Normal (VArr (VObj <$> (textRecord <$> Document_getElementsByTagName doc "book"))).
Proof.
  intros Hnew Hparse. unfold BookSearchApiClient.parseXML.
  rewrite Hnew. cbn. rewrite Hparse. cbn.
  by rewrite <- list_fmap_compose.
Qed.

Lemma parseXML_coercedRecords h xmlString parser doc :
  new_DOMParser h = Normal parser →
  parseFromString parser xmlString "application/xml" = Normal doc →
  BookSearchApiClientFunctional.parseXML h xmlString
  = Normal (VArr (VObj <$> (coercedRecord <$> Document_getElementsByTagName doc "book"))).
Proof.
  intros Hnew Hparse. unfold BookSearchApiClientFunctional.parseXML.
  rewrite Hnew. cbn. rewrite Hparse. cbn.
  by rewrite <- list_fmap_compose.
Qed.

Lemma canonical_field_not_wildcard k : k ∈ canonical_fields → k ≠ "*".
Proof.
  unfold canonical_fields. rewrite !elem_of_cons, elem_of_nil.
  intros [->|[->|[->|[->|[->|[]]]]]]; discriminate.
Qed.

Lemma fieldText_firstDescendant b k :
  k ≠ "*" →
  ∃ e, firstDescendant b k e ∧ fieldText b k = textContent <$> e.
Proof.
  intros Hk. exists (head (Element_getElementsByTagName b k)).
  split; [by apply head_getElementsByTagName|done].
Qed.

(** The book elements of a document, with their positions. *)
Lemma books_of_document doc :
  ∃ books : list (list nat * node),
    Document_getElementsByTagName doc "book" = books.*2 ∧
    StronglySorted precedes books.*1 ∧
    ∀ p b, (p, b) ∈ books ↔ nodeAt doc p = Some b ∧ named "book" b.
Proof. by apply tagged_elements. Qed.

(** C9 (as amended).  When the XML parser of the host accepts the text,
    both [parseXML] return one record for each position of the document,
    at any depth, that holds an element named [book], in document order.
    Each field of a record comes from the first element with the name of
    the field found below the book element at any depth, in document
    order: in the class-based variant every field is the text content of
    that element, or [undefined] when there is none; in the functional
    variant [title], [author] and [isbn] are the same and [quantity] and
    [price] are [Number] and [parseFloat] of it. *)
Theorem parseXML_one_record_per_book
    (h : host) (xmlString : string) (parser : DOMParser) (doc : document) :
  new_DOMParser h = Normal parser →
  parseFromString parser xmlString "application/xml" = Normal doc →
  ∃ (books : list (list nat * node))
    (records records' : list (gmap string value)),
    BookSearchApiClient.parseXML h xmlString
      = Normal (VArr (VObj <$> records)) ∧
    BookSearchApiClientFunctional.parseXML h xmlString
      = Normal (VArr (VObj <$> records')) ∧
    (∀ p b, (p, b) ∈ books ↔ nodeAt doc p = Some b ∧ named "book" b) ∧
    StronglySorted precedes books.*1 ∧
    length records = length books ∧
    length records' = length books ∧
    ∀ (i : nat) p b, books !! i = Some (p, b) →
      ∃ r r', records !! i = Some r ∧ records' !! i = Some r' ∧
        ∀ k, k ∈ canonical_fields →
          ∃ e, firstDescendant b k e ∧
               r !! k = Some (optional_string (textContent <$> e)) ∧
               r' !! k = Some
                 (if String.eqb k "quantity"
                  then VNum (Number (textContent <$> e))
                  else if String.eqb k "price"
                  then VNum (parseFloat (textContent <$> e))
                  else optional_string (textContent <$> e)).
Proof.
  intros Hnew Hparse.
  destruct (books_of_document doc) as (books & Hbooks & Hsorted & Hin).
  exists books, (textRecord <$> books.*2), (coercedRecord <$> books.*2).
  rewrite <- Hbooks.
  split; [by eapply parseXML_textRecords|].
  split; [by eapply parseXML_coercedRecords|].
  split; [done|]. split; [done|].
  rewrite Hbooks, !length_fmap. split; [done|]. split; [done|].
  intros i p b Hi. exists (textRecord b), (coercedRecord b).
  rewrite !list_lookup_fmap, Hi. split; [done|]. split; [done|].
  intros k Hk.
  destruct (fieldText_firstDescendant b k (canonical_field_not_wildcard k Hk))
    as (e & He & Htext).
  exists e. split; [done|]. rewrite <- Htext. clear He Htext.
  revert Hk. unfold canonical_fields. rewrite !elem_of_cons, elem_of_nil.
  intros [->|[->|[->|[->|[->|[]]]]]]; split; reflexivity.
Qed.

Lemma parseXML_one_record_per_book_witness :
  ∃ records records',
    BookSearchApiClient.parseXML
      (stub_host 200 nested_xml "[]" (VArr []) (Some nested_document))
      nested_xml
    = Normal (VArr (VObj <$> records)) ∧
    BookSearchApiClientFunctional.parseXML
      (stub_host 200 nested_xml "[]" (VArr []) (Some nested_document))
      nested_xml
    = Normal (VArr (VObj <$> records')) ∧
    length records = length records'.
Proof.
  destruct (parseXML_one_record_per_book
              (stub_host 200 nested_xml "[]" (VArr []) (Some nested_document))
              nested_xml
              {| parseFromString := λ _ _, Normal nested_document |}
              nested_document eq_refl eq_refl)
    as (books & records & records' & H & H' & _ & _ & Hl & Hl' & _).
  exists records, records'. split; [exact H|]. split; [exact H'|].
  by rewrite Hl, Hl'.
Defined.

(** C9, the claim as stated fails: a [title] nested in another child of
    the book comes earlier in document order than the [title] that is a
    child of the book, and the parser takes the nested one. *)
Lemma nested_title_is_taken_before_the_child :
  Document_getElementsByTagName nested_document "book" = [nested_book]
  ∧ textContent <$> spec_firstChildElement nested_book "title" = Some "Outer"
  ∧ ∃ r, BookSearchApiClient.parseXML
           (stub_host 200 nested_xml "[]" (VArr []) (Some nested_document))
           nested_xml
         = Normal (VArr [VObj r])
         ∧ r !! "title" = Some (VStr "Inner").
Proof.
  split; [reflexivity|]. split; [reflexivity|].
  exists (textRecord nested_book). split; reflexivity.
Qed.

Lemma projection_coercedRecord b : projection (coercedRecord b) = coercedRecord b.
Proof. reflexivity. Qed.

(** C3 (as amended).  When the XML parser of the host accepts the text,
    every record the functional [parseXML] returns holds numbers in
    [quantity] and [price]: [Number] and [parseFloat] of the text content
    of the first [quantity] and [price] element below the book.  The
    number need not be an integer.  It is [NaN] when the element is
    missing and when the text has no numeric reading at its start, and
    [parseXML] does not throw for it; [normaliseData] returns the records
    unchanged. *)
Theorem parseXML_functional_coerces_quantity_and_price
    (h : host) (xmlString : string) (parser : DOMParser) (doc : document) :
  new_DOMParser h = Normal parser →
  parseFromString parser xmlString "application/xml" = Normal doc →
  ∃ records : list (gmap string value),
    BookSearchApiClientFunctional.parseXML h xmlString
      = Normal (VArr (VObj <$> records)) ∧
    BookSearchApiClientFunctional.normaliseData (VArr (VObj <$> records))
      = Normal (VArr (VObj <$> records)) ∧
    length records = length (Document_getElementsByTagName doc "book") ∧
    ∀ (i : nat) b, Document_getElementsByTagName doc "book" !! i = Some b →
      ∃ r quantity price,
        records !! i = Some r ∧
        firstDescendant b "quantity" quantity ∧
        firstDescendant b "price" price ∧
        r !! "quantity" = Some (VNum (Number (textContent <$> quantity))) ∧
        r !! "price" = Some (VNum (parseFloat (textContent <$> price))) ∧
        (quantity = None → r !! "quantity" = Some (VNum NaN)) ∧
        (price = None → r !! "price" = Some (VNum NaN)) ∧
        (∀ e, quantity = Some e → nonNumeric (textContent e) →
              r !! "quantity" = Some (VNum NaN)) ∧
        (∀ e, price = Some e → nonNumeric (textContent e) →
              r !! "price" = Some (VNum NaN)).
Proof.
  intros Hnew Hparse.
  exists (coercedRecord <$> Document_getElementsByTagName doc "book").
  split; [by eapply parseXML_coercedRecords|].
  split.
  { rewrite normaliseData_variants_agree, normaliseData_records.
    do 3 f_equal. rewrite <- list_fmap_compose.
    apply list_fmap_ext. intros _ b _. apply projection_coercedRecord. }
  split; [by rewrite length_fmap|].
  intros i b Hi.
  destruct (fieldText_firstDescendant b "quantity") as (q & Hq & Hqt); [done|].
  destruct (fieldText_firstDescendant b "price") as (p & Hp & Hpt); [done|].
  exists (coercedRecord b), q, p. rewrite list_lookup_fmap, Hi.
  assert (coercedRecord b !! "quantity"
          = Some (VNum (Number (textContent <$> q)))) as HQ
    by (rewrite <- Hqt; reflexivity).
  assert (coercedRecord b !! "price"
          = Some (VNum (parseFloat (textContent <$> p)))) as HP
    by (rewrite <- Hpt; reflexivity).
  split; [reflexivity|]. split; [exact Hq|]. split; [exact Hp|].
  split; [exact HQ|]. split; [exact HP|].
  split; [intros ->; exact HQ|]. split; [intros ->; exact HP|].
  split; intros e -> He; [rewrite HQ|rewrite HP]; cbn [fmap option_fmap option_map].
  - by rewrite Number_nonNumeric.
  - by rewrite parseFloat_nonNumeric.
Qed.

Lemma parseXML_functional_coerces_quantity_and_price_witness :
  ∃ records,
    BookSearchApiClientFunctional.parseXML
      (stub_host 200 fractional_xml "[]" (VArr []) (Some fractional_document))
      fractional_xml
    = Normal (VArr (VObj <$> records)) ∧
    length records = 1.
Proof.
  destruct (parseXML_functional_coerces_quantity_and_price
              (stub_host 200 fractional_xml "[]" (VArr []) (Some fractional_document))
              fractional_xml
              {| parseFromString := λ _ _, Normal fractional_document |}
              fractional_document eq_refl eq_refl)
    as (records & H & _ & Hl & _).
  exists records. split; [exact H|exact Hl].
Defined.

(** C3, the claim as stated fails: the quantity text [3.5] is converted
    to the number 3.5, which is not an integer. *)
Lemma fractional_quantity_is_not_an_integer :
  ∃ r n,
    BookSearchApiClientFunctional.parseXML
      (stub_host 200 fractional_xml "[]" (VArr []) (Some fractional_document))
      fractional_xml
    = Normal (VArr [VObj r])
    ∧ r !! "quantity" = Some (VNum n)
    ∧ n = Finite false 35 (-1)
    ∧ isInteger n = false.
Proof.
  eexists _, _. split; [reflexivity|]. split; [reflexivity|].
  split; reflexivity.
Qed.

(** On the same document the class-based [parseXML] converts nothing:
    [quantity] and [price] stay the strings of the document. *)
Example parseXML_class_based_keeps_text :
  ∃ r,
    BookSearchApiClient.parseXML
      (stub_host 200 fractional_xml "[]" (VArr []) (Some fractional_document))
      fractional_xml
    = Normal (VArr [VObj r])
    ∧ r !! "quantity" = Some (VStr "3.5")
    ∧ r !! "price" = Some (VStr "9.99").
Proof. eexists. split; [reflexivity|]. split; reflexivity. Qed.

(** Blank text is not [NaN] for [Number], and [parseFloat] reads a numeric
    prefix of a text that is not a number as a whole. *)
Example Number_of_blank_text : Number (Some "  ") = Finite false 0 0.
Proof. reflexivity. Qed.

Example parseFloat_of_a_numeric_prefix :
  parseFloat (Some "12 copies") = Finite false 12 0
  ∧ Number (Some "12 copies") = NaN.
Proof. split; reflexivity. Qed.

(** * Further properties of the two files *)

(** ** The normaliser on arbitrary input *)

Lemma normalise_item_canonicalRecord item :
  nullish item = false → normalise_item item = Normal (canonicalRecord item).
Proof. by destruct item. Qed.

Lemma normalise_item_nullish item :
  nullish item = true →
  ∃ e, normalise_item item = Throw e ∧ name e = "TypeError".
Proof. destruct item; try done; by eexists. Qed.

Lemma mapM_normalise_item_Normal items out :
  mapM normalise_item items = Normal out ↔
  Forall (λ item, nullish item = false) items ∧ out = canonicalRecord <$> items.
Proof.
  revert out. induction items as [|item items IH]; intros out; cbn [mapM].
  - split; [by intros [= <-]|by intros [_ ->]].
  - destruct (nullish item) eqn:Hitem.
    + destruct (normalise_item_nullish _ Hitem) as (e & -> & _). cbn.
      split; [done|]. intros [Hall _]. apply Forall_cons in Hall as [? _].
      congruence.
    + rewrite (normalise_item_canonicalRecord _ Hitem). cbn.
      destruct (mapM normalise_item items) as [os|e]; cbn.
      * split.
        -- intros [= <-]. destruct (proj1 (IH os) eq_refl) as [Hall ->].
           split; [by constructor|done].
        -- intros [Hall ->]. apply Forall_cons in Hall as [_ Hall].
           by pose proof (proj2 (IH _) (conj Hall eq_refl)) as [= ->].
      * split; [done|]. intros [Hall _]. apply Forall_cons in Hall as [_ Hall].
        by pose proof (proj2 (IH _) (conj Hall eq_refl)).
Qed.

Lemma mapM_normalise_item_Throw items :
  Exists (λ item, nullish item = true) items →
  ∃ e, mapM normalise_item items = Throw e ∧ name e = "TypeError".
Proof.
  induction 1 as [item items Hitem|item items _ (e & He & Hname)]; cbn [mapM].
  - destruct (normalise_item_nullish _ Hitem) as (e & -> & Hname). by exists e.
  - destruct (nullish item) eqn:Hitem.
    + destruct (normalise_item_nullish _ Hitem) as (e' & -> & Hname').
      by exists e'.
    + rewrite (normalise_item_canonicalRecord _ Hitem), He. by exists e.
Qed.

(** What [normaliseData] returns, when it returns. *)
Lemma normaliseData_Normal x y :
  BookSearchApiClient.normaliseData x = Normal y →
  ∃ items, x = VArr items ∧ y = VArr (canonicalRecord <$> items) ∧
           Forall (λ item, nullish item = false) items.
Proof.
  destruct x; try discriminate. rewrite normaliseData_array.
  destruct (mapM normalise_item items) as [out|e] eqn:E; [|discriminate].
  intros [= <-]. apply mapM_normalise_item_Normal in E as [Hall ->]. eauto.
Qed.

Lemma canonicalRecord_dom item :
  ∃ m, canonicalRecord item = VObj m ∧ dom m = list_to_set canonical_fields.
Proof. eexists. split; [reflexivity|apply projection_dom]. Qed.

(** X2.  [normaliseData], of either variant, returns exactly when its input
    is an array without [null] and [undefined] items, and then it returns
    one record per item, in order: the five canonical fields read from the
    own properties of an object, and five times [undefined] for an array or
    a primitive. *)
Theorem normaliseData_returns_iff (x y : value) :
  (BookSearchApiClient.normaliseData x = Normal y ↔
   ∃ items, x = VArr items ∧
            Forall (λ item, nullish item = false) items ∧
            y = VArr (canonicalRecord <$> items)) ∧
  (BookSearchApiClientFunctional.normaliseData x = Normal y ↔
   BookSearchApiClient.normaliseData x = Normal y).
Proof.
  split; [|done]. split.
  - intros (items & -> & -> & Hall)%normaliseData_Normal. eauto.
  - intros (items & -> & Hall & ->). rewrite normaliseData_array.
    by rewrite (proj2 (mapM_normalise_item_Normal items _) (conj Hall eq_refl)).
Qed.

(** X3.  There is no partial result: one [null] or [undefined] item
    anywhere in the array makes [normaliseData], of either variant, throw a
    [TypeError], whatever the other items are. *)
Theorem normaliseData_no_partial_result (items : list value) :
  Exists (λ item, nullish item = true) items →
  ∃ e, BookSearchApiClient.normaliseData (VArr items) = Throw e ∧
       BookSearchApiClientFunctional.normaliseData (VArr items) = Throw e ∧
       name e = "TypeError".
Proof.
  intros (e & He & Hname)%mapM_normalise_item_Throw.
  exists e. change (BookSearchApiClientFunctional.normaliseData (VArr items))
    with (BookSearchApiClient.normaliseData (VArr items)).
  rewrite normaliseData_array, He. done.
Qed.

Lemma normaliseData_no_partial_result_witness :
  ∃ e, BookSearchApiClient.normaliseData (VArr [VObj hamlet; VNull]) = Throw e
       ∧ name e = "TypeError".
Proof.
  destruct (normaliseData_no_partial_result [VObj hamlet; VNull])
    as (e & He & _ & Hname).
  - apply Exists_cons_tl, Exists_cons_hd. reflexivity.
  - exists e. split; [exact He|exact Hname].
Defined.

(** ** The class-based entry point on every path *)

(** X4.  [getBooksByAuthor] logs exactly what it rejects with: a fulfilled
    call passes nothing to [console.error], a rejected call passes the one
    error the promise is rejected with. *)
Theorem getBooksByAuthor_logs_what_it_rejects
    (h : host) (this : BookSearchApiClient.client)
    (authorName : string) (limit : option N) :
  match outcome (BookSearchApiClient.getBooksByAuthor h this authorName limit) with
  | Fulfilled _ =>
      console_error (BookSearchApiClient.getBooksByAuthor h this authorName limit)
      = []
  | Rejected e =>
      console_error (BookSearchApiClient.getBooksByAuthor h this authorName limit)
      = [e]
  end.
Proof.
  rewrite getBooksByAuthor_stages. unfold logged_async.
  by destruct (_ ≫= _).
Qed.

(** X5.  An error of the transport is passed on unchanged: when [fetch]
    rejects, or when the status is 2xx and reading the body rejects,
    [getBooksByAuthor] is rejected with that same error, logged once. *)
Theorem getBooksByAuthor_passes_on_transport_errors
    (h : host) (this : BookSearchApiClient.client)
    (authorName : string) (limit : option N) (e : exn) :
  (fetch h (request_url (BookSearchApiClient.baseURL this) authorName limit
              (Some (BookSearchApiClient.format this))) = Throw e
   ∨ ∃ response,
       fetch h (request_url (BookSearchApiClient.baseURL this) authorName limit
                  (Some (BookSearchApiClient.format this))) = Normal response
       ∧ ok response = true ∧ text response = Throw e) →
  BookSearchApiClient.getBooksByAuthor h this authorName limit
  = Run (Rejected e) [e].
Proof.
  rewrite getBooksByAuthor_stages.
  intros [->|(response & -> & Hok & Htext)]; [done|].
  cbn. by rewrite Hok, Htext.
Qed.

Lemma getBooksByAuthor_passes_on_transport_errors_witness :
  BookSearchApiClient.getBooksByAuthor
    (fixed_fetch_host (Throw (TypeError "Failed to fetch")))
    (BookSearchApiClient.constructor
       (fixed_fetch_host (Throw (TypeError "Failed to fetch")))
       "http://api.example.com" None)
    "Shakespeare" None
  = Run (Rejected (TypeError "Failed to fetch")) [TypeError "Failed to fetch"].
Proof.
  apply getBooksByAuthor_passes_on_transport_errors. left. reflexivity.
Defined.

Lemma getBooksByAuthor_request_failed_witness :
  BookSearchApiClient.getBooksByAuthor
    (stub_host 404 "Not Found" "[]" (VArr []) None)
    (BookSearchApiClient.constructor
       (stub_host 404 "Not Found" "[]" (VArr []) None)
       "http://api.example.com" (Some "xml"))
    "Shakespeare" None
  = Run (Rejected (Error "Request failed with status 404"))
        [Error "Request failed with status 404"].
Proof.
  apply (getBooksByAuthor_request_failed
           (stub_host 404 "Not Found" "[]" (VArr []) None) _ _ _
           {| status := 404; text := Normal "Not Found" |});
    reflexivity.
Defined.

(** X6.  Whenever [getBooksByAuthor] is fulfilled, whatever the client and
    the host: the server answered with a 2xx status, the body could be
    read, and the value is an array of records made by the normaliser,
    each with exactly the five canonical fields. *)
Theorem getBooksByAuthor_fulfilled_only_with_records
    (h : host) (this : BookSearchApiClient.client)
    (authorName : string) (limit : option N) (v : value) :
  outcome (BookSearchApiClient.getBooksByAuthor h this authorName limit)
  = Fulfilled v →
  (∃ response rawData,
     fetch h (request_url (BookSearchApiClient.baseURL this) authorName limit
                (Some (BookSearchApiClient.format this))) = Normal response
     ∧ ok response = true ∧ text response = Normal rawData) ∧
  ∃ records : list (gmap string value),
    v = VArr (VObj <$> records) ∧
    Forall (λ m, dom m = list_to_set canonical_fields) records.
Proof.
  rewrite getBooksByAuthor_stages.
  destruct (fetch h _) as [response|e] eqn:Hfetch; [|discriminate]. cbn.
  destruct (ok response) eqn:Hok; [|discriminate]. cbn.
  destruct (text response) as [rawData|e] eqn:Htext; [|discriminate]. cbn.
  destruct (Get _ _) as [parser|]; [|discriminate].
  destruct (BookSearchApiClient.call parser rawData) as [data|e];
    [|discriminate]. cbn.
  destruct (BookSearchApiClient.normaliseData data) as [y|e] eqn:Hy;
    [|discriminate].
  intros [= <-]. split; [by exists response, rawData|].
  apply normaliseData_Normal in Hy as (items & _ & -> & _).
  exists ((λ item, projection (properties item)) <$> items). split.
  - by rewrite <- list_fmap_compose.
  - apply Forall_fmap, Forall_forall. intros item _. apply projection_dom.
Qed.

Lemma getBooksByAuthor_fulfilled_only_with_records_witness :
  ∃ records : list (gmap string value),
    VArr [VObj hamlet] = VArr (VObj <$> records) ∧
    Forall (λ m, dom m = list_to_set canonical_fields) records.
Proof.
  apply (getBooksByAuthor_fulfilled_only_with_records
           (stub_host 200 hamlet_text hamlet_text (VArr [VObj hamlet]) None)
           (BookSearchApiClient.constructor
              (stub_host 200 hamlet_text hamlet_text (VArr [VObj hamlet]) None)
              "http://api.example.com" None)
           "Shakespeare" None (VArr [VObj hamlet])).
  vm_compute. reflexivity.
Defined.

(** X7.  A 2xx answer whose body [JSON.parse] reads as an array without
    [null] and [undefined] items: [getBooksByAuthor] of a client whose
    format is [json] (also by default) is fulfilled with one normalised
    record per item, in order, and logs nothing. *)
Theorem getBooksByAuthor_json_array
    (h : host) (baseURL : string) (fmt : option string)
    (authorName : string) (limit : option N)
    (response : Response) (rawData : string) (items : list value) :
  default "json" fmt = "json" →
  fetch h (request_url baseURL authorName limit fmt) = Normal response →
  ok response = true →
  text response = Normal rawData →
  JSON_parse h rawData = Normal (VArr items) →
  Forall (λ item, nullish item = false) items →
  BookSearchApiClient.getBooksByAuthor h
    (BookSearchApiClient.constructor h baseURL fmt) authorName limit
  = Run (Fulfilled (VArr (canonicalRecord <$> items))) [].
Proof.
  intros Hfmt Hfetch Hok Htext Hparse Hall.
  rewrite (getBooksByAuthor_json _ _ _ _ _ _ _ Hfmt Hfetch Hok Htext).
  unfold BookSearchApiClient.parseJSON. rewrite Hparse.
  cbn [try_catch mbind completion_bind]. rewrite normaliseData_array.
  by rewrite (proj2 (mapM_normalise_item_Normal items _) (conj Hall eq_refl)).
Qed.

Lemma getBooksByAuthor_json_array_witness :
  BookSearchApiClient.getBooksByAuthor
    (stub_host 200 hamlet_text hamlet_text (VArr [VObj hamlet; VNum NaN]) None)
    (BookSearchApiClient.constructor
       (stub_host 200 hamlet_text hamlet_text (VArr [VObj hamlet; VNum NaN]) None)
       "http://api.example.com" None)
    "Shakespeare" None
  = Run (Fulfilled (VArr [VObj hamlet; VObj (projection ∅)])) [].
Proof.
  rewrite (getBooksByAuthor_json_array
             (stub_host 200 hamlet_text hamlet_text
                (VArr [VObj hamlet; VNum NaN]) None)
             "http://api.example.com" None "Shakespeare" None
             {| status := 200; text := Normal hamlet_text |} hamlet_text
             [VObj hamlet; VNum NaN]
             eq_refl eq_refl eq_refl eq_refl eq_refl);
    [reflexivity|].
  repeat constructor.
Defined.

(** ** The XML parsers on every input *)

Lemma projection_textRecord b : projection (textRecord b) = textRecord b.
Proof. reflexivity. Qed.

(** [parseXML] of the class-based client either throws or returns the text
    records of the book elements of some document. *)
Lemma parseXML_cases h xmlString :
  (∃ cause, BookSearchApiClient.parseXML h xmlString
            = Throw (Error ("XML Parsing Error: " +:+ message cause))
            ∧ BookSearchApiClientFunctional.parseXML h xmlString
              = Throw (Error ("XML Parsing Error: " +:+ message cause))
            ∧ (new_DOMParser h = Throw cause
               ∨ ∃ parser, new_DOMParser h = Normal parser
                           ∧ parseFromString parser xmlString "application/xml"
                             = Throw cause))
  ∨ (∃ parser doc,
       new_DOMParser h = Normal parser
       ∧ parseFromString parser xmlString "application/xml" = Normal doc
       ∧ BookSearchApiClient.parseXML h xmlString
         = Normal (VArr (VObj <$> (textRecord
                      <$> Document_getElementsByTagName doc "book")))
       ∧ BookSearchApiClientFunctional.parseXML h xmlString
         = Normal (VArr (VObj <$> (coercedRecord
                      <$> Document_getElementsByTagName doc "book")))).
Proof.
  destruct (new_DOMParser h) as [parser|cause] eqn:Hnew.
  - destruct (parseFromString parser xmlString "application/xml")
      as [doc|cause] eqn:Hparse.
    + right. exists parser, doc. split; [done|]. split; [done|].
      split; [by eapply parseXML_textRecords|by eapply parseXML_coercedRecords].
    + left. exists cause.
      unfold BookSearchApiClient.parseXML, BookSearchApiClientFunctional.parseXML.
      rewrite Hnew. cbn. rewrite Hparse. cbn.
      split; [done|]. split; [done|]. right. by exists parser.
  - left. exists cause.
    unfold BookSearchApiClient.parseXML, BookSearchApiClientFunctional.parseXML.
    rewrite Hnew. cbn. split; [done|]. split; [done|]. by left.
Qed.

(** The normaliser leaves what the class-based [parseXML] returns as it
    is. *)
Lemma parseXML_normalised h xmlString v :
  BookSearchApiClient.parseXML h xmlString = Normal v →
  BookSearchApiClient.normaliseData v = Normal v.
Proof.
  destruct (parseXML_cases h xmlString)
    as [(cause & -> & _)|(parser & doc & _ & _ & -> & _)]; [done|].
  intros [= <-]. rewrite normaliseData_records. do 3 f_equal.
  rewrite <- list_fmap_compose. apply list_fmap_ext. intros _ b _.
  apply projection_textRecord.
Qed.

(** X8.  A 2xx answer whose body can be read, for a client whose format is
    [xml]: [getBooksByAuthor] settles as [parseXML] of the body does.  It
    is fulfilled with the very array [parseXML] returns, which the
    normaliser leaves unchanged, or rejected with the error [parseXML]
    throws. *)
Theorem getBooksByAuthor_xml
    (h : host) (baseURL authorName : string) (limit : option N)
    (response : Response) (rawData : string) :
  fetch h (request_url baseURL authorName limit (Some "xml")) = Normal response →
  ok response = true →
  text response = Normal rawData →
  BookSearchApiClient.getBooksByAuthor h
    (BookSearchApiClient.constructor h baseURL (Some "xml")) authorName limit
  = logged_async (BookSearchApiClient.parseXML h rawData).
Proof.
  intros Hfetch Hok Htext.
  rewrite getBooksByAuthor_stages, constructor_registry.
  cbn [BookSearchApiClient.constructor BookSearchApiClient.baseURL
       BookSearchApiClient.format default from_option id].
  rewrite Hfetch. cbn. rewrite Hok, Htext. cbn.
  rewrite decide_False, decide_True by done. cbn [BookSearchApiClient.call].
  destruct (BookSearchApiClient.parseXML h rawData) as [v|e] eqn:Hv; [|done].
  cbn. by rewrite (parseXML_normalised _ _ _ Hv).
Qed.

Lemma getBooksByAuthor_xml_witness :
  BookSearchApiClient.getBooksByAuthor
    (stub_host 200 fractional_xml "[]" (VArr []) (Some fractional_document))
    (BookSearchApiClient.constructor
       (stub_host 200 fractional_xml "[]" (VArr []) (Some fractional_document))
       "http://api.example.com" (Some "xml"))
    "Shakespeare" None
  = Run (Fulfilled (VArr [VObj {[ "title" := VStr "Hamlet";
                                   "author" := VUndefined;
                                   "isbn" := VUndefined;
                                   "quantity" := VStr "3.5";
                                   "price" := VStr "9.99" ]}])) [].
Proof.
  rewrite (getBooksByAuthor_xml
             (stub_host 200 fractional_xml "[]" (VArr []) (Some fractional_document))
             "http://api.example.com" "Shakespeare" None
             {| status := 200; text := Normal fractional_xml |} fractional_xml
             eq_refl eq_refl eq_refl).
  reflexivity.
Defined.

(** X9.  The parsers of both files throw nothing but their own wrapped
    error: [parseJSON] throws exactly when [JSON.parse] does, and
    [parseXML] exactly when the host has no [DOMParser] or its
    [parseFromString] throws; the error is a plain [Error] whose message
    is the prefix of the format followed by the message of the cause, so
    the name of the cause is lost.  Building the records never throws. *)
Theorem parsers_throw_only_wrapped_errors (h : host) (s : string) (e : exn) :
  (BookSearchApiClient.parseJSON h s = Throw e ↔
   ∃ cause, JSON_parse h s = Throw cause ∧
            e = Error ("JSON Parsing Error: " +:+ message cause)) ∧
  (BookSearchApiClientFunctional.parseJSON h s = Throw e ↔
   BookSearchApiClient.parseJSON h s = Throw e) ∧
  (BookSearchApiClient.parseXML h s = Throw e ↔
   ∃ cause, (new_DOMParser h = Throw cause
             ∨ ∃ parser, new_DOMParser h = Normal parser
                         ∧ parseFromString parser s "application/xml"
                           = Throw cause) ∧
            e = Error ("XML Parsing Error: " +:+ message cause)) ∧
  (BookSearchApiClientFunctional.parseXML h s = Throw e ↔
   BookSearchApiClient.parseXML h s = Throw e).
Proof.
  split; [|split; [done|split]].
  - unfold BookSearchApiClient.parseJSON.
    destruct (JSON_parse h s) as [v|cause]; cbn.
    + split; [done|]. by intros (cause & [=] & _).
    + split; [intros [= <-]; eauto|]. by intros (cause' & [= <-] & ->).
  - destruct (parseXML_cases h s)
      as [(cause & -> & _ & Hcause)|(parser & doc & Hnew & Hparse & -> & _)].
    + split; [intros [= <-]; eauto|].
      intros (cause' & Hcause' & ->). do 2 f_equal.
      destruct Hcause as [H|(p & Hp & H)], Hcause' as [H'|(p' & Hp' & H')];
        congruence.
    + split; [done|]. intros (cause & [H|(p & Hp & H)] & _); congruence.
  - destruct (parseXML_cases h s)
      as [(cause & -> & -> & _)|(parser & doc & _ & _ & -> & ->)]; done.
Qed.

Lemma coerced_textRecord b : coerced (textRecord b) = coercedRecord b.
Proof.
  unfold coerced, textRecord, coercedRecord.
  replace (textOf (_ !! "quantity")) with (fieldText b "quantity")
    by (cbn; by destruct (fieldText b "quantity")).
  replace (textOf (_ !! "price")) with (fieldText b "price")
    by (cbn; by destruct (fieldText b "price")).
  reflexivity.
Qed.

(** X10.  The two [parseXML] differ in the conversion only: on every host
    and text they throw the same error, or they return arrays of the same
    length in which each record of the functional variant is the record of
    the class-based one with [quantity] replaced by [Number] and [price]
    by [parseFloat] of the text the class-based record holds there. *)
Theorem parseXML_variants_differ_in_conversion_only (h : host) (s : string) :
  (∃ e, BookSearchApiClient.parseXML h s = Throw e ∧
        BookSearchApiClientFunctional.parseXML h s = Throw e)
  ∨ (∃ records : list (gmap string value),
       BookSearchApiClient.parseXML h s = Normal (VArr (VObj <$> records)) ∧
       BookSearchApiClientFunctional.parseXML h s
       = Normal (VArr (VObj <$> (coerced <$> records)))).
Proof.
  destruct (parseXML_cases h s)
    as [(cause & -> & -> & _)|(parser & doc & _ & _ & -> & ->)].
  - left. eauto.
  - right. eexists. split; [reflexivity|]. do 3 f_equal.
    rewrite <- list_fmap_compose. apply list_fmap_ext. intros _ b _.
    symmetry. apply coerced_textRecord.
Qed.

Lemma textRecord_isText b k x : textRecord b !! k = Some x → isText x.
Proof.
  destruct (decide (k ∈ canonical_fields)) as [Hk|Hk].
  - rewrite <- projection_textRecord, projection_lookup by done.
    intros [= <-]. revert Hk. unfold canonical_fields.
    rewrite !elem_of_cons, elem_of_nil.
    intros [->|[->|[->|[->|[->|[]]]]]];
      match goal with
      | |- isText (default _ (textRecord _ !! ?f)) =>
          change (isText (optional_string (fieldText b f)));
          destruct (fieldText b f); [right; eauto|by left]
      end.
  - by rewrite <- projection_textRecord, projection_lookup_other.
Qed.

(** X11.  Every record the class-based [parseXML] returns has exactly the
    five canonical fields, and each of them, [quantity] and [price]
    included, holds a string or [undefined]: this parser never produces a
    number. *)
Theorem parseXML_class_based_records_hold_text
    (h : host) (s : string) (v : value) :
  BookSearchApiClient.parseXML h s = Normal v →
  ∃ records : list (gmap string value),
    v = VArr (VObj <$> records) ∧
    Forall (λ m, dom m = list_to_set canonical_fields ∧
                 ∀ k x, m !! k = Some x → isText x) records.
Proof.
  destruct (parseXML_cases h s)
    as [(cause & -> & _)|(parser & doc & _ & _ & -> & _)]; [done|].
  intros [= <-]. eexists. split; [reflexivity|].
  apply Forall_fmap, Forall_forall. intros b _. split.
  - rewrite <- projection_textRecord. apply projection_dom.
  - apply textRecord_isText.
Qed.

Lemma parseXML_class_based_records_hold_text_witness :
  ∃ records : list (gmap string value),
    VArr [VObj (textRecord nested_book)] = VArr (VObj <$> records) ∧
    Forall (λ m, dom m = list_to_set canonical_fields ∧
                 ∀ k x, m !! k = Some x → isText x) records.
Proof.
  apply (parseXML_class_based_records_hold_text
           (stub_host 200 nested_xml "[]" (VArr []) (Some nested_document))
           nested_xml).
  reflexivity.
Defined.

(** X12.  When the XML parser of the host accepts the text, both
    [parseXML] return the empty array exactly when no position of the
    document holds an element named [book]; the document of a browser for
    ill-formed text, a lone [parsererror] element, is such a document. *)
Theorem parseXML_empty_iff_no_book
    (h : host) (xmlString : string) (parser : DOMParser) (doc : document) :
  new_DOMParser h = Normal parser →
  parseFromString parser xmlString "application/xml" = Normal doc →
  (BookSearchApiClient.parseXML h xmlString = Normal (VArr []) ↔
   ∀ p b, nodeAt doc p = Some b → ¬ named "book" b) ∧
  (BookSearchApiClientFunctional.parseXML h xmlString = Normal (VArr []) ↔
   ∀ p b, nodeAt doc p = Some b → ¬ named "book" b).
Proof.
  intros Hnew Hparse.
  rewrite (parseXML_textRecords _ _ _ _ Hnew Hparse),
          (parseXML_coercedRecords _ _ _ _ Hnew Hparse).
  destruct (books_of_document doc) as (books & -> & _ & Hin).
  assert ((∀ p b, nodeAt doc p = Some b → ¬ named "book" b) ↔ books = [])
    as ->.
  { split.
    - intros Hnone. destruct books as [|[p b] books]; [done|].
      destruct (proj1 (Hin p b)) as [Hp Hb]; [by left|].
      by destruct (Hnone _ _ Hp).
    - intros -> p b Hp Hb. by apply (elem_of_nil (p, b)), Hin. }
  split; (split; [|by intros ->]);
    intros [= H]; by destruct books.
Qed.

Lemma parseXML_empty_iff_no_book_witness :
  BookSearchApiClient.parseXML
    (stub_host 200 "<books>" "[]" (VArr []) (Some parsererror_document))
    "<books>"
  = Normal (VArr [])
  ∧ ∀ p b, nodeAt parsererror_document p = Some b → ¬ named "book" b.
Proof.
  destruct (parseXML_empty_iff_no_book
              (stub_host 200 "<books>" "[]" (VArr []) (Some parsererror_document))
              "<books>"
              {| parseFromString := λ _ _, Normal parsererror_document |}
              parsererror_document eq_refl eq_refl) as [H _].
  split; [reflexivity|]. apply H. reflexivity.
Defined.

(** ** Every way a call is rejected *)

Lemma normaliseData_Throw x e :
  BookSearchApiClient.normaliseData x = Throw e → name e = "TypeError".
Proof.
  destruct x; try by intros [= <-].
  rewrite normaliseData_array.
  destruct (mapM normalise_item items) as [out|e'] eqn:E; [done|].
  intros [= <-]. revert E.
  induction items as [|item items IH]; [done|]. cbn [mapM].
  destruct (nullish item) eqn:Hitem.
  - destruct (normalise_item_nullish _ Hitem) as (e0 & -> & Hname).
    by intros [= <-].
  - rewrite (normalise_item_canonicalRecord _ Hitem). cbn.
    destruct (mapM normalise_item items); [done|]. intros [= <-]. by apply IH.
Qed.

(** X13.  The errors of [getBooksByAuthor] are these and no others.  A
    rejected call of a constructed client was rejected with the error of
    [fetch]; or, the status not being 2xx, with the request error that
    carries the status; or, the status being 2xx, with the error of
    reading the body, with the unsupported-format error (only for a format
    other than [json] and [xml]), with the wrapped error of the JSON
    parser (only for [json]) or of the XML parser (only for [xml]), or
    with a [TypeError] (never for [xml]). *)
Theorem getBooksByAuthor_rejections
    (h : host) (baseURL : string) (fmt : option string)
    (authorName : string) (limit : option N) (e : exn) :
  outcome (BookSearchApiClient.getBooksByAuthor h
             (BookSearchApiClient.constructor h baseURL fmt) authorName limit)
  = Rejected e →
  fetch h (request_url baseURL authorName limit fmt) = Throw e
  ∨ ∃ response,
      fetch h (request_url baseURL authorName limit fmt) = Normal response ∧
      ((ok response = false ∧
        e = Error ("Request failed with status " +:+ pretty (status response)))
       ∨ (ok response = true ∧
          (text response = Throw e
           ∨ (e = Error ("Unsupported format: " +:+ default "json" fmt)
              ∧ default "json" fmt ≠ "json" ∧ default "json" fmt ≠ "xml")
           ∨ (default "json" fmt = "json"
              ∧ ∃ cause, e = Error ("JSON Parsing Error: " +:+ message cause))
           ∨ (default "json" fmt = "xml"
              ∧ ∃ cause, e = Error ("XML Parsing Error: " +:+ message cause))
           ∨ (name e = "TypeError" ∧ default "json" fmt ≠ "xml")))).
Proof.
  rewrite getBooksByAuthor_stages, constructor_registry.
  cbn [BookSearchApiClient.constructor BookSearchApiClient.baseURL
       BookSearchApiClient.format].
  change (request_url baseURL authorName limit (Some (default "json" fmt)))
    with (request_url baseURL authorName limit fmt).
  destruct (fetch h _) as [response|e0]; [|intros [= <-]; by left].
  cbn. destruct (ok response) eqn:Hok; cbn.
  2: { intros [= <-]. right. exists response. split; [done|]. by left. }
  destruct (text response) as [rawData|e0] eqn:Htext; cbn.
  2: { intros [= <-]. right. exists response. split; [done|].
       right. split; [done|]. by left. }
  intros H. right. exists response. split; [done|].
  right. split; [done|]. right.
  destruct (decide (default "json" fmt = "json")) as [Hj|Hj].
  - cbn in H. unfold BookSearchApiClient.parseJSON in H.
    destruct (JSON_parse h rawData) as [data|cause]; cbn in H.
    + destruct (BookSearchApiClient.normaliseData data) eqn:Hn; [done|].
      injection H as <-. do 3 right.
      split; [by eapply normaliseData_Throw|by rewrite Hj].
    + injection H as <-. right. left. eauto.
  - destruct (decide (default "json" fmt = "xml")) as [Hx|Hx].
    + cbn in H.
      destruct (BookSearchApiClient.parseXML h rawData) as [v|e0] eqn:Hp;
        cbn in H.
      * by rewrite (parseXML_normalised _ _ _ Hp) in H.
      * injection H as <-. do 2 right. left. split; [done|].
        destruct (parseXML_cases h rawData)
          as [(cause & Hc & _)|(parser & doc & _ & _ & Hc & _)];
          rewrite Hc in Hp; [|done].
        injection Hp as <-. eauto.
    + destruct (bool_decide _).
      * cbn in H.
        pose proof (inherited_member_never_normalises
                      (default "json" fmt) rawData) as Hcall.
        destruct (call_Object_prototype _ rawData) as [data|e0]; cbn in H.
        -- destruct Hcall as (e' & He' & Hname). rewrite He' in H.
           injection H as <-. by do 3 right.
        -- injection H as <-. by do 3 right.
      * injection H as <-. by left.
Qed.

Lemma getBooksByAuthor_rejections_witness :
  ∃ cause, Error "JSON Parsing Error: Unexpected token"
           = Error ("JSON Parsing Error: " +:+ message cause).
Proof.
  destruct (getBooksByAuthor_rejections
              (stub_host 200 "{not valid" "[]" (VArr []) None)
              "http://api.example.com" None "Shakespeare" None
              (Error "JSON Parsing Error: Unexpected token") eq_refl)
    as [H|(response & Hfetch & H)].
  - discriminate H.
  - injection Hfetch as <-. destruct H as [[H _]|[_ H]]; [discriminate H|].
    destruct H as [H|[[H _]|[[_ H]|[[H _]|[H _]]]]]; try discriminate H.
    exact H.
Defined.
